(** * SRResNet: the model adapter, its command-line driver and the
      datamodule package of pl_bolts

    Sources embedded here:
    - [pl_bolts/models/gans/srgan/srresnet_module.py]
      (class [SRResNet] and the function [cli_main]);
    - [pl_bolts/datamodules/__init__.py] (the package namespace).

    The numeric library (torch), the training framework
    (pytorch_lightning) and the generator network are not part of these
    files.  They enter as the fields of three interfaces, [Python],
    [Torch] and [Lightning]; every statement below holds for all their
    implementations, and a small executable implementation ([Toy]) is
    used to run the code on concrete inputs. *)

From Stdlib Require Import ZArith QArith String List DecimalString Lia.
From stdpp Require Import base option list gmap strings.

Local Open Scope Z_scope.
Local Open Scope string_scope.
Local Open Scope list_scope.

(** ** Python values, exceptions and results *)

(** The scalar values that travel through option dictionaries: the
    parsed command line, keyword arguments, hyperparameters.  A float is
    carried as the rational it denotes (the infinities and NaN are left
    out); this code never computes with one, and the numeric library
    only compares it with zero. *)
Inductive value : Type :=
| VNone
| VBool (b : bool)
| VInt (z : Z)
| VFloat (q : Q)
| VStr (s : string).

Inductive exn : Type :=
| TypeError
| ValueError
| AttributeError (attr : string)
| RuntimeError
| ArgumentError (opt : string)
| SystemExit (code : Z)
| OSError.

(** A call either returns or raises. *)
Inductive result (A : Type) : Type :=
| Ok (a : A)
| Raise (e : exn).
Arguments Ok {A} a.
Arguments Raise {A} e.

#[export] Instance result_ret : MRet result := @Ok.
#[export] Instance result_bind : MBind result := λ A B f r,
  match r with
  | Ok a => f a
  | Raise e => Raise e
  end.
#[export] Instance result_fmap : FMap result := λ A B f r,
  match r with
  | Ok a => Ok (f a)
  | Raise e => Raise e
  end.

Definition is_ok {A} (r : result A) : bool :=
  match r with
  | Ok _ => true
  | Raise _ => false
  end.

(** [obj.name] on an object whose attributes are the entries of [d]. *)
Definition getattr (d : gmap string value) (name : string) : result value :=
  match d !! name with
  | Some v => Ok v
  | None => Raise (AttributeError name)
  end.

(** ** The interpreter and the numeric library *)

Class Python := {
  (** [repr] of a float *)
  float_repr : Q → string;
  (** [sys.argv[1:]], what [parse_args(None)] reads *)
  sys_argv : list string;
}.

(** [str(v)], as an f-string field formats it. *)
Definition py_str {P : Python} (v : value) : string :=
  match v with
  | VNone => "None"
  | VBool true => "True"
  | VBool false => "False"
  | VInt z => NilZero.string_of_int (Z.to_int z)
  | VFloat q => float_repr q
  | VStr s => s
  end.

(** Modelled from the spec: the generator network [SRGANGenerator] of
    [pl_bolts.models.gans.srgan.components] is not among the sources.
    The spec gives it as a fixed feed-forward transformation from a
    low-resolution image tensor to a high-resolution one, built from the
    channel count and the feature-map width; a shape it does not accept
    is a failure of the numeric library.  The remaining fields are the
    functions of torch that the adapter calls. *)
Class Torch := {
  tensor : Type;
  (** an [nn.Module] with its learned weights *)
  module : Type;
  (** a learnable tensor of a module *)
  parameter : Type;
  (** [SRGANGenerator(image_channels, feature_maps)] *)
  SRGANGenerator : value → value → result module;
  (** [net(x)] *)
  module_call : module → tensor → result tensor;
  (** [net.parameters()] *)
  module_parameters : module → list parameter;
  (** [F.mse_loss(input, target)] on two tensors *)
  mse_loss : tensor → tensor → result tensor;
  (** iteration of a tensor along its first dimension *)
  tensor_unbind : tensor → result (list tensor);
  (** the scalar tensor [0.0] *)
  zero_scalar : tensor;
}.

Section Adapter.
Context {T : Torch}.

(** What a batch can be: a tensor, or a tuple or list of batches (a
    DataLoader collates a dataset of pairs into a list of two tensors). *)
#[warnings="-register-all"]
Inductive pyobj : Type :=
| PTensor (t : tensor)
| PTuple (xs : list pyobj)
| PList (xs : list pyobj).

(** [iter(o)], run to its end. *)
Definition py_iter (o : pyobj) : result (list pyobj) :=
  match o with
  | PTensor t => fmap (M:=result) (map PTensor) (tensor_unbind t)
  | PTuple xs => Ok xs
  | PList xs => Ok xs
  end.

(** [a, b = o] *)
Definition unpack2 (o : pyobj) : result (pyobj * pyobj) :=
  xs ← py_iter o;
  match xs with
  | [a; b] => Ok (a, b)
  | _ => Raise ValueError
  end.

(** One call of [self.log]. *)
Record metric : Type := {
  metric_name : string;
  metric_value : tensor;
  metric_on_step : bool;
  metric_on_epoch : bool;
}.

Inductive algorithm : Type :=
| Adam
| SGD
| RMSprop.

(** An optimizer of [torch.optim]: the update rule, the tensors it
    updates and the learning rate of its parameter group. *)
Record optimizer : Type := {
  optim_algorithm : algorithm;
  optim_params : list parameter;
  optim_lr : value;
}.

(** [0.0 <= lr], the test [torch.optim.Adam] makes on its learning
    rate: numbers compare (a bool counts as 0 or 1), [None] and strings
    do not. *)
Definition nonnegative (lr : value) : result bool :=
  match lr with
  | VFloat q => Ok (Qle_bool 0 q)
  | VInt z => Ok (Z.leb 0 z)
  | VBool _ => Ok true
  | VNone | VStr _ => Raise TypeError
  end.

(** [torch.optim.Adam(params, lr=lr)]: the learning rate is checked
    first, then the parameters; a negative learning rate and an empty
    parameter list are value errors. *)
Definition torch_optim_Adam (params : list parameter) (lr : value)
    : result optimizer :=
  ok ← nonnegative lr;
  if (ok : bool) then
    match params with
    | [] => Raise ValueError
    | _ => Ok {| optim_algorithm := Adam; optim_params := params; optim_lr := lr |}
    end
  else Raise ValueError.

(** The state of one [SRResNet] object: [self.hparams], [self.srresnet]
    and the metrics passed to [self.log] so far. *)
Record SRResNet : Type := {
  hparams : gmap string value;
  srresnet : module;
  logged : list metric;
}.

(** A method body: it reads and updates [self] and returns or raises. *)
Definition method (A : Type) : Type := SRResNet → result A * SRResNet.

#[export] Instance method_ret : MRet method := λ A a self, (Ok a, self).
#[export] Instance method_bind : MBind method := λ A B f m self,
  match m self with
  | (Ok a, self') => f a self'
  | (Raise e, self') => (Raise e, self')
  end.

(** A call that does not touch [self]. *)
Definition pure_call {A} (r : result A) : method A := λ self, (r, self).

(** [self.hparams.<name>] *)
Definition self_hparam (name : string) : method value :=
  λ self, (getattr (hparams self) name, self).

(** [self.srresnet] *)
Definition self_srresnet : method module :=
  λ self, (Ok (srresnet self), self).

(** [self.log(name, v, on_step=.., on_epoch=..)] *)
Definition self_log (name : string) (v : tensor) (step epoch : bool) : method unit :=
  λ self,
    (Ok tt,
     {| hparams := hparams self;
        srresnet := srresnet self;
        logged := logged self ++
                  [{| metric_name := name; metric_value := v;
                      metric_on_step := step; metric_on_epoch := epoch |}] |}).

(** A positional argument that torch needs to be a tensor. *)
Definition as_tensor (o : pyobj) (otherwise : exn) : result tensor :=
  match o with
  | PTensor t => Ok t
  | _ => Raise otherwise
  end.

(** *** [SRResNet.__init__] *)

Definition default_image_channels : value := VInt 3.
Definition default_feature_maps : value := VInt 64.
Definition default_learning_rate : value := VFloat (1 # 10000).

(** The names [save_hyperparameters] never stores: the receiver, the
    variable that holds the keyword dictionary, and the names the
    framework uses for itself while it inspects the call. *)
Definition excluded_names : list string :=
  ["self"; "kwargs"; "__class__"; "frame"; "frame_args"].

Definition without_excluded (m : gmap string value) : gmap string value :=
  foldr delete m excluded_names.

(** [self.save_hyperparameters()] without arguments collects the
    arguments the constructor was called with, the named ones, then the
    entries of [**kwargs] on top of them, and stores them but for the
    excluded names. *)
Definition save_hyperparameters
    (image_channels feature_maps learning_rate : value)
    (kwargs : gmap string value) : gmap string value :=
  without_excluded
    (kwargs ∪ <["image_channels" := image_channels]>
                (<["feature_maps" := feature_maps]>
                   (<["learning_rate" := learning_rate]> ∅))).

Definition SRResNet_init
    (image_channels feature_maps learning_rate : value)
    (kwargs : gmap string value) : result SRResNet :=
  let hp := save_hyperparameters image_channels feature_maps learning_rate kwargs in
  ic ← getattr hp "image_channels";
  fm ← getattr hp "feature_maps";
  net ← SRGANGenerator ic fm;
  Ok {| hparams := hp; srresnet := net; logged := [] |}.

(** The options of a keyword call that [SRResNet.__init__] does not
    name; they are what [**kwargs] receives. *)
Definition extra_options (kw : gmap string value) : gmap string value :=
  delete "learning_rate" (delete "feature_maps" (delete "image_channels" kw)).

(** The keyword call of the constructor with the dictionary [kw]
    unpacked.  A keyword [self] collides with the receiver and is a type
    error; otherwise a named argument takes its entry of [kw] or its
    default, and the other entries go to [**kwargs]. *)
Definition SRResNet_new (kw : gmap string value) : result SRResNet :=
  match kw !! "self" with
  | Some _ => Raise TypeError
  | None =>
      SRResNet_init
        (default default_image_channels (kw !! "image_channels"))
        (default default_feature_maps (kw !! "feature_maps"))
        (default default_learning_rate (kw !! "learning_rate"))
        (extra_options kw)
  end.

(** *** The methods *)

Definition configure_optimizers : method optimizer :=
  net ← self_srresnet;
  lr ← self_hparam "learning_rate";
  pure_call (torch_optim_Adam (module_parameters net) lr).

Definition forward (x : pyobj) : method tensor :=
  net ← self_srresnet;
  pure_call (t ← as_tensor x TypeError; module_call net t).

Definition training_step (batch : pyobj) (batch_idx : Z) : method tensor :=
  '(hr_image, lr_image) ← pure_call (unpack2 batch);
  fake ← forward lr_image;
  loss ← pure_call (input ← as_tensor hr_image (AttributeError "size");
                    mse_loss input fake);
  _ ← self_log "loss" loss true true;
  mret loss.

End Adapter.

(** ** The command line *)

(** [type=int] and [type=float] of [add_argument]. *)
Inductive argtype : Type :=
| TInt
| TFloat.

(** What an option does when it is met on the command line: store its
    value, converted by [type=], under its name ([default=] when the
    option is absent), or print the usage and exit. *)
Inductive action : Type :=
| Store (dflt : value) (ty : argtype)
| Help.

(** One option string declared on an [ArgumentParser], with its
    action.  A parser is the list of its option strings in the order of
    declaration. *)
Record argspec : Type := {
  arg_option : string;
  arg_action : action;
}.

(** The help action that [ArgumentParser()] declares by itself
    ([add_help] is true by default), under its two option strings. *)
Definition help_arguments : list argspec :=
  [ {| arg_option := "-h"; arg_action := Help |};
    {| arg_option := "--help"; arg_action := Help |} ].

(** [parser.add_argument(opt, default=.., type=..)]: an option string
    that the parser already has is a conflict. *)
Definition add_argument (parser : list argspec)
    (opt : string) (dflt : value) (ty : argtype) : result (list argspec) :=
  if decide (opt ∈ map arg_option parser)
  then Raise (ArgumentError opt)
  else Ok (parser ++ [{| arg_option := opt; arg_action := Store dflt ty |}]).

(** [SRResNet.add_model_specific_args]: a new parser that starts from
    the arguments of [parent_parser], its help action included, and
    declares no help action of its own ([add_help=False]). *)
Definition add_model_specific_args (parent_parser : list argspec)
    : result (list argspec) :=
  let parser := parent_parser in
  parser ← add_argument parser "--image_channels" (VInt 3) TInt;
  parser ← add_argument parser "--feature_maps" (VInt 64) TInt;
  parser ← add_argument parser "--learning_rate" (VFloat (1 # 10000)) TFloat;
  Ok parser.

(** The three arguments [add_model_specific_args] declares, in the
    order of the source. *)
Definition model_arguments : list argspec :=
  [ {| arg_option := "--image_channels"; arg_action := Store (VInt 3) TInt |};
    {| arg_option := "--feature_maps"; arg_action := Store (VInt 64) TInt |};
    {| arg_option := "--learning_rate";
       arg_action := Store (VFloat (1 # 10000)) TFloat |} ].

(** ** The training framework *)

(** What [cli_main] calls outside this module: the dataset adapter
    [STL10_SR_DataModule] and the image-logging callback (classes of
    [pl_bolts] that are not among the sources), the orchestrator
    [pl.Trainer], [parse_args] of [argparse] and [torch.save].  All are
    taken as given; nothing is assumed of what they return.
    [Trainer_fit] returns the adapter and the trainer as training leaves
    them. *)
Class Lightning {P : Python} {T : Torch} := {
  datamodule : Type;
  trainer : Type;
  callback : Type;
  DataModule_add_argparse_args : list argspec → result (list argspec);
  Trainer_add_argparse_args : list argspec → result (list argspec);
  parse_args : list argspec → list string → result (gmap string value);
  DataModule_from_argparse_args : gmap string value → result datamodule;
  SRImageLoggerCallback : value → result callback;
  Trainer_from_argparse_args : gmap string value → list callback → result trainer;
  Trainer_fit : trainer → SRResNet → datamodule → result (SRResNet * trainer);
  Trainer_global_step : trainer → value;
  (** [torch.save(obj, path)] *)
  torch_save : module → string → result unit;
}.

Section Driver.
Context {P : Python} {T : Torch} {L : Lightning}.

(** The calls of [cli_main], one constructor per call site of the
    source, each with what the call returned or raised. *)
Inductive event : Type :=
| EvSeedEverything (seed : Z)
| EvArgumentParser
| EvAddArgument (opt : string) (r : result (list argspec))
| EvDataModuleArgs (r : result (list argspec))
| EvTrainerArgs (r : result (list argspec))
| EvModelArgs (r : result (list argspec))
| EvParseArgs (argv : list string) (r : result (gmap string value))
| EvModel (kw : gmap string value) (r : result SRResNet)
| EvDataModule (r : result datamodule)
| EvCallback (log_interval : value) (r : result callback)
| EvTrainer (r : result trainer)
| EvFit (r : result (SRResNet * trainer))
| EvTorchSave (obj : module) (path : string) (r : result unit).

(** A run: the calls made, in order, and how the run ended. *)
Definition process (A : Type) : Type := list event * result A.

#[export] Instance process_ret : MRet process := λ A a, ([], Ok a).
#[export] Instance process_bind : MBind process := λ A B f m,
  match m with
  | (evs, Ok a) => let '(evs', r) := f a in (evs ++ evs', r)
  | (evs, Raise e) => (evs, Raise e)
  end.

(** A call, recorded with its outcome. *)
Definition call {A} (ev : result A → event) (r : result A) : process A :=
  ([ev r], r).

(** An attribute read: not a call, nothing recorded. *)
Definition local {A} (r : result A) : process A := ([], r).

(** [pl.seed_everything(seed)] *)
Definition seed_everything (seed : Z) : process Z :=
  ([EvSeedEverything seed], Ok seed).

(** [ArgumentParser()]: a parser that so far declares its help action. *)
Definition ArgumentParser : process (list argspec) :=
  ([EvArgumentParser], Ok help_arguments).

Definition cli_main (args : option (list string)) : process unit :=
  _ ← seed_everything 1234;
  parser ← ArgumentParser;
  parser ← call (EvAddArgument "--log_interval")
             (add_argument parser "--log_interval" (VInt 1000) TInt);
  parser ← call EvDataModuleArgs (DataModule_add_argparse_args parser);
  parser ← call EvTrainerArgs (Trainer_add_argparse_args parser);
  parser ← call EvModelArgs (add_model_specific_args parser);
  let argv := default sys_argv args in
  args ← call (EvParseArgs argv) (parse_args parser argv);
  model ← call (EvModel args) (SRResNet_new args);
  dm ← call EvDataModule (DataModule_from_argparse_args args);
  log_interval ← local (getattr args "log_interval");
  cb ← call (EvCallback log_interval) (SRImageLoggerCallback log_interval);
  trainer ← call EvTrainer (Trainer_from_argparse_args args [cb]);
  '(model, trainer) ← call EvFit (Trainer_fit trainer model dm);
  let net := srresnet model in
  max_epochs ← local (getattr args "max_epochs");
  let path := "srresnet-epoch=" +:+ py_str max_epochs +:+
              "-step=" +:+ py_str (Trainer_global_step trainer) +:+ ".pt" in
  call (EvTorchSave net path) (torch_save net path).

(** *** Reading a run *)

(** The artifact writes of a run: object and path, in order. *)
Definition artifact_writes (evs : list event) : list (module * string) :=
  omap (λ e, match e with
             | EvTorchSave obj path _ => Some (obj, path)
             | _ => None
             end) evs.

(** What [parse_args] gave, if the run got there. *)
Definition parsed_options (evs : list event) : option (result (gmap string value)) :=
  head (omap (λ e, match e with
                   | EvParseArgs _ r => Some r
                   | _ => None
                   end) evs).

(** How [trainer.fit] ended, if the run got there. *)
Definition fit_outcome (evs : list event) : option (result (SRResNet * trainer)) :=
  head (omap (λ e, match e with
                   | EvFit r => Some r
                   | _ => None
                   end) evs).

(** The keyword arguments the adapter was constructed with. *)
Definition constructor_options (evs : list event) : option (gmap string value) :=
  head (omap (λ e, match e with
                   | EvModel kw _ => Some kw
                   | _ => None
                   end) evs).

(** The adapter as training left it. *)
Definition trained_adapter (evs : list event) : option SRResNet :=
  match fit_outcome evs with
  | Some (Ok (model, _)) => Some model
  | _ => None
  end.

(** The exception a call raised, if it raised. *)
Definition exn_of {A} (r : result A) : option exn :=
  match r with
  | Ok _ => None
  | Raise e => Some e
  end.

Definition raised (ev : event) : option exn :=
  match ev with
  | EvSeedEverything _ | EvArgumentParser => None
  | EvAddArgument _ r | EvDataModuleArgs r | EvTrainerArgs r | EvModelArgs r =>
      exn_of r
  | EvParseArgs _ r => exn_of r
  | EvModel _ r => exn_of r
  | EvDataModule r => exn_of r
  | EvCallback _ r => exn_of r
  | EvTrainer r => exn_of r
  | EvFit r => exn_of r
  | EvTorchSave _ _ r => exn_of r
  end.

Definition returned (ev : event) : bool :=
  match raised ev with
  | None => true
  | Some _ => false
  end.

(** The position of a call in the body of [cli_main], counting its
    thirteen call sites from 0. *)
Definition call_site (ev : event) : nat :=
  match ev with
  | EvSeedEverything _ => 0
  | EvArgumentParser => 1
  | EvAddArgument _ _ => 2
  | EvDataModuleArgs _ => 3
  | EvTrainerArgs _ => 4
  | EvModelArgs _ => 5
  | EvParseArgs _ _ => 6
  | EvModel _ _ => 7
  | EvDataModule _ => 8
  | EvCallback _ _ => 9
  | EvTrainer _ => 10
  | EvFit _ => 11
  | EvTorchSave _ _ _ => 12
  end.

(** The parser as [Trainer.add_argparse_args] returned it, the parent
    that [add_model_specific_args] receives. *)
Definition trainer_arguments (evs : list event) : option (result (list argspec)) :=
  head (omap (λ e, match e with
                   | EvTrainerArgs r => Some r
                   | _ => None
                   end) evs).

End Driver.

(** ** The datamodule package *)

Module DataModules.

(** The statements a Python module is made of, as far as its namespace
    goes: an import of names from another module, or anything else that
    binds a name by running code of its own. *)
Inductive statement : Type :=
| ImportFrom (source : string) (names : list string)
| Assign (target : string)
| FunctionDef (name : string)
| ClassDef (name : string).

(** [pl_bolts/datamodules/__init__.py], line by line. *)
Definition init_py : list statement :=
  [ ImportFrom "pl_bolts.datamodules.lightning_datamodule" ["LightningDataModule"];
    ImportFrom "pl_bolts.datamodules.imagenet_datamodule" ["ImagenetDataModule"];
    ImportFrom "pl_bolts.datamodules.cifar10_datamodule" ["CIFAR10DataModule"];
    ImportFrom "pl_bolts.datamodules.mnist_datamodule" ["MNISTDataModule"];
    ImportFrom "pl_bolts.datamodules.stl10_datamodule" ["STL10DataModule"];
    ImportFrom "pl_bolts.datamodules.sklearn_datamodule"
               ["SklearnDataset"; "SklearnDataModule"] ].

(** Where a name of the namespace comes from: a name imported from a
    module, a submodule of the package, or a definition of the file. *)
Inductive origin : Type :=
| ImportedFrom (source : string)
| Submodule (path : string)
| DefinedHere.

(** The package whose [__init__.py] this is. *)
Definition package : string := "pl_bolts.datamodules".

(** Loading a module below the package binds, on the package, the first
    component of the module's path below it: [sub] for
    [package.sub] and for [package.sub.more]. *)
Definition submodule (source : string) : option string :=
  let below := package +:+ "." in
  if String.prefix below source then
    let rest := String.substring (String.length below)
                  (String.length source - String.length below) source in
    Some (match String.index 0 "." rest with
          | Some i => String.substring 0 i rest
          | None => rest
          end)
  else None.

(** Running one statement binds its names.  An import first loads the
    module, which binds the submodule on the package, then binds the
    imported names.  What the file of a submodule binds while it loads
    is the business of that file, not of this one. *)
Definition exec_statement (ns : gmap string origin) (s : statement)
    : gmap string origin :=
  match s with
  | ImportFrom source names =>
      let ns :=
        match submodule source with
        | Some sub => <[sub := Submodule (package +:+ "." +:+ sub)]> ns
        | None => ns
        end in
      foldl (λ ns name, <[name := ImportedFrom source]> ns) ns names
  | Assign name | FunctionDef name | ClassDef name => <[name := DefinedHere]> ns
  end.

(** The names of [pl_bolts.datamodules] once the package is imported. *)
Definition namespace : gmap string origin := foldl exec_statement ∅ init_py.





(** The names a statement binds, with their origins, in order. *)
Definition bindings (s : statement) : list (string * origin) :=
  match s with
  | ImportFrom source names =>
      match submodule source with
      | Some sub => [(sub, Submodule (package +:+ "." +:+ sub))]
      | None => []
      end ++ ((λ name, (name, ImportedFrom source)) <$> names)
  | Assign name | FunctionDef name | ClassDef name => [(name, DefinedHere)]
  end.

End DataModules.

(** ** An executable implementation of the interfaces

    One-dimensional signals over the rationals stand for image tensors.
    The generator doubles the resolution (each sample is repeated) and
    scales by one learned gain; training moves the gain against the
    loss.  The command line is a sequence of [--option value] pairs. *)

Module Toy.

Record net : Type := {
  net_channels : Z;
  net_features : Z;
  net_gain : Q;
}.

Definition generator (ic fm : value) : result net :=
  match ic, fm with
  | VInt c, VInt f =>
      if Z.ltb 0 c && Z.ltb 0 f
      then Ok {| net_channels := c; net_features := f; net_gain := 1 |}
      else Raise RuntimeError
  | _, _ => Raise TypeError
  end.

Definition upsample (g : net) (x : list Q) : result (list Q) :=
  match x with
  | [] => Raise RuntimeError
  | _ => Ok (flat_map (λ v, [Qred (net_gain g * v); Qred (net_gain g * v)]) x)
  end.

Definition mean_squared_error (a b : list Q) : result (list Q) :=
  if decide (length a = length b)
  then Ok [Qred (foldr Qplus 0%Q (zip_with (λ u v, (u - v) * (u - v))%Q a b)
                 / inject_Z (Z.of_nat (length a)))]
  else Raise RuntimeError.

Definition save (obj : net) (path : string) : result unit :=
  if decide (path = "") then Raise OSError else Ok tt.

Definition python : Python :=
  {| float_repr q :=
       NilZero.string_of_int (Z.to_int (Qnum q)) +:+ "/" +:+
       NilZero.string_of_int (Z.to_int (Z.pos (Qden q)));
     sys_argv := [] |}.

Definition torch : Torch :=
  {| tensor := list Q;
     module := net;
     parameter := string * Q;
     SRGANGenerator := generator;
     module_call := upsample;
     module_parameters g := [("gain", net_gain g)];
     mse_loss := mean_squared_error;
     tensor_unbind x := Ok (map (λ v, [v]) x);
     zero_scalar := [0%Q] |}.

#[local] Existing Instance python.
#[local] Existing Instance torch.

(** *** The command line *)

(** The attribute an option is stored under: the option string without
    its two dashes. *)
Definition dest (opt : string) : string :=
  String.substring 2 (String.length opt - 2)%nat opt.

(** A decimal float literal [ddd.ddd]. *)
Definition parse_float (s : string) : option value :=
  match String.index 0 "." s with
  | Some i =>
      let frac := String.substring (S i) (String.length s - S i)%nat s in
      ip ← NilZero.uint_of_string (String.substring 0 i s);
      fp ← NilZero.uint_of_string frac;
      let scale := 10 ^ Z.of_nat (String.length frac) in
      Some (VFloat (Qred ((Z.of_uint ip * scale + Z.of_uint fp) # Z.to_pos scale)))
  | None => None
  end.

Definition convert (ty : argtype) (s : string) : option value :=
  match ty with
  | TInt => i ← NilZero.int_of_string s; Some (VInt (Z.of_int i))
  | TFloat => parse_float s
  end.

Definition defaults (parser : list argspec) : gmap string value :=
  foldl (λ ns a, match arg_action a with
                 | Store dflt _ => <[dest (arg_option a) := dflt]> ns
                 | Help => ns
                 end) ∅ parser.

Fixpoint parse_pairs (parser : list argspec) (argv : list string)
    (ns : gmap string value) : result (gmap string value) :=
  match argv with
  | [] => Ok ns
  | opt :: val :: rest =>
      match list_find (λ a, arg_option a = opt) parser with
      | Some (_, a) =>
          match arg_action a with
          | Store _ ty =>
              match convert ty val with
              | Some v => parse_pairs parser rest (<[dest opt := v]> ns)
              | None => Raise (SystemExit 2)
              end
          | Help => Raise (SystemExit 0)
          end
      | None => Raise (SystemExit 2)
      end
  | _ => Raise (SystemExit 2)
  end.

Definition parse (parser : list argspec) (argv : list string)
    : result (gmap string value) :=
  parse_pairs parser argv (defaults parser).

(** *** The trainer *)

Record loop : Type := {
  loop_max_epochs : Z;
  loop_callbacks : list Z;
  loop_global_step : Z;
}.

Definition image_logger (log_interval : value) : result Z :=
  match log_interval with
  | VInt n => Ok n
  | _ => Raise TypeError
  end.

Definition make_loop (ns : gmap string value) (cbs : list Z) : result loop :=
  me ← getattr ns "max_epochs";
  match me with
  | VInt n => Ok {| loop_max_epochs := n; loop_callbacks := cbs; loop_global_step := 0 |}
  | _ => Raise TypeError
  end.

(** One optimizer step. *)
Definition descend (lr : Q) (loss : list Q) (m : SRResNet) : SRResNet :=
  {| hparams := hparams m;
     srresnet :=
       {| net_channels := net_channels (srresnet m);
          net_features := net_features (srresnet m);
          net_gain := Qred (net_gain (srresnet m) - lr * hd 0%Q loss) |};
     logged := logged m |}.

Fixpoint epoch (lr : Q) (batches : list pyobj) (idx : Z) (m : SRResNet) (step : Z)
    : result (SRResNet * Z) :=
  match batches with
  | [] => Ok (m, step)
  | b :: rest =>
      match training_step b idx m with
      | (Ok loss, m') => epoch lr rest (idx + 1) (descend lr loss m') (step + 1)
      | (Raise e, _) => Raise e
      end
  end.

Fixpoint epochs (n : nat) (lr : Q) (batches : list pyobj) (m : SRResNet) (step : Z)
    : result (SRResNet * Z) :=
  match n with
  | O => Ok (m, step)
  | S n' =>
      '(m', step') ← epoch lr batches 0 m step;
      epochs n' lr batches m' step'
  end.

Definition fit (t : loop) (m : SRResNet) (dm : list pyobj) : result (SRResNet * loop) :=
  match configure_optimizers m with
  | (Ok opt, m) =>
      match optim_lr opt with
      | VFloat lr =>
          '(m', step) ← epochs (Z.to_nat (loop_max_epochs t)) lr dm m 0;
          Ok (m', {| loop_max_epochs := loop_max_epochs t;
                     loop_callbacks := loop_callbacks t;
                     loop_global_step := step |})
      | _ => Raise TypeError
      end
  | (Raise e, _) => Raise e
  end.

(** The framework over a dataset given as its list of batches. *)
Definition lightning (batches : list pyobj) : Lightning :=
  {| datamodule := list pyobj;
     trainer := loop;
     callback := Z;
     DataModule_add_argparse_args p := add_argument p "--batch_size" (VInt 16) TInt;
     Trainer_add_argparse_args p := add_argument p "--max_epochs" (VInt 1) TInt;
     parse_args := parse;
     DataModule_from_argparse_args _ := Ok batches;
     SRImageLoggerCallback := image_logger;
     Trainer_from_argparse_args := make_loop;
     Trainer_fit := fit;
     Trainer_global_step t := VInt (loop_global_step t);
     torch_save := save |}.

(** A low-resolution signal with a high-resolution target, the dataset
    of this one pair, and the adapter the constructor builds from its
    defaults. *)
Definition signal (samples : list Q) : tensor := samples.
Definition low_res : tensor := signal [1; 3]%Q.
Definition high_res : tensor := signal [1; 2; 3; 4]%Q.
Definition one_pair : list pyobj := [PList [PTensor high_res; PTensor low_res]].

Definition fresh_net : module :=
  {| net_channels := 3; net_features := 64; net_gain := 1 |}.

Definition adapter : SRResNet :=
  {| hparams := save_hyperparameters (VInt 3) (VInt 64) (VFloat (1 # 10000)) ∅;
     srresnet := fresh_net;
     logged := [] |}.

(** What a command line without arguments parses to. *)
Definition default_options : gmap string value :=
  list_to_map
    [ ("log_interval", VInt 1000); ("batch_size", VInt 16);
      ("max_epochs", VInt 1); ("image_channels", VInt 3);
      ("feature_maps", VInt 64); ("learning_rate", VFloat (1 # 10000)) ].

(** The adapter and the trainer after one epoch over [one_pair] with
    the default options: one step, loss 1/2, the gain moved by
    1e-4 * 1/2. *)
Definition trained_net : module :=
  {| net_channels := 3; net_features := 64; net_gain := 19999 # 20000 |}.

Definition trained : SRResNet :=
  {| hparams := default_options;
     srresnet := trained_net;
     logged := [{| metric_name := "loss"; metric_value := signal [1 # 2]%Q;
                   metric_on_step := true; metric_on_epoch := true |}] |}.

(** The adapter the constructor builds from [default_options]. *)
Definition built : SRResNet :=
  {| hparams := default_options; srresnet := fresh_net; logged := [] |}.

Definition finished : trainer (Lightning:=lightning one_pair) :=
  {| loop_max_epochs := 1; loop_callbacks := [1000]; loop_global_step := 1 |}.

(** A dataset whose only batch holds one tensor instead of a pair. *)
Definition malformed : list pyobj := [PTuple [PTensor low_res]].

(** A framework whose trainer declares a [--learning_rate] option of
    its own. *)
Definition clashing : Lightning :=
  {| datamodule := list pyobj;
     trainer := loop;
     callback := Z;
     DataModule_add_argparse_args p := add_argument p "--batch_size" (VInt 16) TInt;
     Trainer_add_argparse_args p :=
       p ← add_argument p "--max_epochs" (VInt 1) TInt;
       add_argument p "--learning_rate" (VFloat (1 # 100)) TFloat;
     parse_args := parse;
     DataModule_from_argparse_args _ := Ok one_pair;
     SRImageLoggerCallback := image_logger;
     Trainer_from_argparse_args := make_loop;
     Trainer_fit := fit;
     Trainer_global_step t := VInt (loop_global_step t);
     torch_save := save |}.

(** The parser as that trainer leaves it. *)
Definition clashing_arguments : list argspec :=
  help_arguments ++
  [ {| arg_option := "--log_interval"; arg_action := Store (VInt 1000) TInt |};
    {| arg_option := "--batch_size"; arg_action := Store (VInt 16) TInt |};
    {| arg_option := "--max_epochs"; arg_action := Store (VInt 1) TInt |};
    {| arg_option := "--learning_rate";
       arg_action := Store (VFloat (1 # 100)) TFloat |} ].

End Toy.

(** ** Reading a decimal numeral *)

From Stdlib Require Import Ascii.
From Stdlib Require DecimalPos DecimalZ.

(** The character [c] does not occur in [s]. *)
Fixpoint lacks (c : ascii) (s : string) : Prop :=
  match s with
  | EmptyString => True
  | String x s' => x ≠ c ∧ lacks c s'
  end.


(** * Properties *)

(** ** The model adapter *)

Section AdapterFacts.
Context {T : Torch}.

Implicit Types (self : SRResNet) (kw kwargs : gmap string value).

(** Unfolds the method monad down to the interface calls. *)
Ltac run_method :=
  unfold training_step, forward, configure_optimizers, self_log, self_hparam,
    self_srresnet, pure_call, mbind, method_bind, mret, method_ret; simpl.

Lemma forward_unfold self (x : tensor) :
  forward (PTensor x) self = (module_call (srresnet self) x, self).
Proof.
  run_method. unfold mbind, result_bind; simpl.
  by destruct (module_call (srresnet self) x).
Qed.

Lemma unpack2_pair (batch a b : pyobj) :
  py_iter batch = Ok [a; b] → unpack2 batch = Ok (a, b).
Proof. intros Hit. unfold unpack2. by rewrite Hit. Qed.

(** C6. For every input tensor [x], [forward] returns what the owned
    generator network returns on [x] (its tensor, or the exception it
    raises) and leaves the adapter as it was: same hyperparameters, same
    network, same logged metrics. *)
Theorem forward_delegates_and_preserves_self self (x : tensor) :
  (forward (PTensor x) self).1 = module_call (srresnet self) x ∧
  (forward (PTensor x) self).2 = self.
Proof. by rewrite forward_unfold. Qed.

(** The step on a batch of two tensors, with every way it can end: an
    exception of the generator or of the loss leaves the adapter as it
    was and is passed on. *)
Lemma training_step_unfold self (batch : pyobj) (batch_idx : Z) (hr lr : tensor) :
  py_iter batch = Ok [PTensor hr; PTensor lr] →
  training_step batch batch_idx self =
    match module_call (srresnet self) lr with
    | Ok fake =>
        match mse_loss hr fake with
        | Ok loss =>
            (Ok loss,
             {| hparams := hparams self;
                srresnet := srresnet self;
                logged := logged self ++
                          [{| metric_name := "loss"; metric_value := loss;
                              metric_on_step := true; metric_on_epoch := true |}] |})
        | Raise e => (Raise e, self)
        end
    | Raise e => (Raise e, self)
    end.
Proof.
  intros Hit. unfold training_step.
  unfold mbind at 1, method_bind, pure_call.
  rewrite (unpack2_pair _ _ _ Hit).
  unfold mbind at 1. rewrite forward_unfold.
  destruct (module_call (srresnet self) lr) as [fake|e]; [|done].
  unfold mbind at 1; simpl. unfold mbind at 1, result_bind.
  by destruct (mse_loss hr fake).
Qed.

(** C1. On a batch that unpacks to the pair (high_res, low_res),
    whatever the batch index, [training_step] runs [forward] on the
    low-res member, takes the mean-squared error of the high-res member
    and the output, logs it once under the name "loss" with on_step and
    on_epoch set, changes nothing else, and returns that same scalar. *)
Theorem training_step_spec self (batch : pyobj) (batch_idx : Z)
    (hr lr fake loss : tensor) :
  py_iter batch = Ok [PTensor hr; PTensor lr] →
  (forward (PTensor lr) self).1 = Ok fake →
  mse_loss hr fake = Ok loss →
  training_step batch batch_idx self =
    (Ok loss,
     {| hparams := hparams self;
        srresnet := srresnet self;
        logged := logged self ++
                  [{| metric_name := "loss"; metric_value := loss;
                      metric_on_step := true; metric_on_epoch := true |}] |}).
Proof.
  intros Hit Hfw Hmse.
  rewrite forward_unfold in Hfw; simpl in Hfw.
  by rewrite (training_step_unfold self batch batch_idx hr lr Hit), Hfw, Hmse.
Qed.

(** C9. The batch index has no influence: from the same adapter state
    and the same batch, any two indices give the same returned loss (or
    the same exception) and the same adapter state afterwards. *)
Theorem training_step_ignores_batch_idx self (batch : pyobj) (i j : Z) :
  training_step batch i self = training_step batch j self.
Proof. reflexivity. Qed.


(** *** What the methods leave alone *)

Lemma forward_frame self (x : pyobj) : (forward x self).2 = self.
Proof.
  run_method. by destruct (as_tensor x TypeError ≫= module_call (srresnet self)).
Qed.

Lemma configure_optimizers_frame self : (configure_optimizers self).2 = self.
Proof. run_method. by destruct (getattr (hparams self) "learning_rate"). Qed.

(** A step only ever adds to the logged metrics. *)
Lemma training_step_state self (batch : pyobj) (batch_idx : Z) :
  ∃ ms : list metric,
    (training_step batch batch_idx self).2 =
      {| hparams := hparams self; srresnet := srresnet self;
         logged := logged self ++ ms |}.
Proof.
  assert (Hself : self = {| hparams := hparams self; srresnet := srresnet self;
                            logged := logged self ++ [] |}).
  { destruct self; simpl. by rewrite app_nil_r. }
  unfold training_step. unfold mbind at 1, method_bind, pure_call.
  destruct (unpack2 batch) as [[hr_image lr_image]|e]; simpl; [|by exists []].
  unfold mbind at 1.
  pose proof (forward_frame self lr_image) as Hfw.
  destruct (forward lr_image self) as [[fake|e] self']; simpl in Hfw; subst self';
    simpl; [|by exists []].
  unfold mbind at 1.
  destruct (as_tensor hr_image (AttributeError "size") ≫= _); simpl;
    [by eexists | by exists []].
Qed.

Lemma training_step_frame self (batch : pyobj) (batch_idx : Z) :
  hparams (training_step batch batch_idx self).2 = hparams self ∧
  srresnet (training_step batch batch_idx self).2 = srresnet self.
Proof.
  destruct (training_step_state self batch batch_idx) as [ms ->]. by split.
Qed.

(** *** Construction *)

Lemma extra_options_named kw (name : string) :
  name = "image_channels" ∨ name = "feature_maps" ∨ name = "learning_rate" →
  extra_options kw !! name = None.
Proof.
  unfold extra_options. intros [-> | [-> | ->]]; by simplify_map_eq.
Qed.

Lemma without_excluded_lookup (m : gmap string value) (k : string) :
  k ∉ excluded_names → without_excluded m !! k = m !! k.
Proof.
  unfold without_excluded, excluded_names. rewrite !not_elem_of_cons.
  intros (? & ? & ? & ? & ? & _). simpl. by rewrite !lookup_delete_ne.
Qed.

Lemma without_excluded_lookup_excluded (m : gmap string value) (k : string) :
  k ∈ excluded_names → without_excluded m !! k = None.
Proof.
  unfold without_excluded, excluded_names. rewrite !elem_of_cons, elem_of_nil.
  intros [->|[->|[->|[->|[->|[]]]]]]; simpl; by simplify_map_eq.
Qed.

Lemma without_excluded_union (m1 m2 : gmap string value) :
  without_excluded (m1 ∪ m2) = without_excluded m1 ∪ without_excluded m2.
Proof. unfold without_excluded. simpl. by rewrite !delete_union. Qed.

Lemma named_not_excluded (name : string) :
  name = "image_channels" ∨ name = "feature_maps" ∨ name = "learning_rate" →
  name ∉ excluded_names.
Proof.
  unfold excluded_names. rewrite !not_elem_of_cons.
  by intros [-> | [-> | ->]]; repeat split; try apply not_elem_of_nil.
Qed.

Lemma save_hyperparameters_named ic fm lr kwargs :
  kwargs !! "image_channels" = None →
  kwargs !! "feature_maps" = None →
  kwargs !! "learning_rate" = None →
  save_hyperparameters ic fm lr kwargs !! "image_channels" = Some ic ∧
  save_hyperparameters ic fm lr kwargs !! "feature_maps" = Some fm ∧
  save_hyperparameters ic fm lr kwargs !! "learning_rate" = Some lr.
Proof.
  intros Hic Hfm Hlr. unfold save_hyperparameters.
  rewrite !without_excluded_lookup by (apply named_not_excluded; auto).
  rewrite !lookup_union_r by done. by simplify_map_eq.
Qed.

(** What a successful keyword construction returns. *)
Lemma SRResNet_new_inv kw self :
  SRResNet_new kw = Ok self →
  SRGANGenerator (default default_image_channels (kw !! "image_channels"))
                 (default default_feature_maps (kw !! "feature_maps"))
    = Ok (srresnet self) ∧
  hparams self
    = save_hyperparameters
        (default default_image_channels (kw !! "image_channels"))
        (default default_feature_maps (kw !! "feature_maps"))
        (default default_learning_rate (kw !! "learning_rate"))
        (extra_options kw) ∧
  logged self = [].
Proof.
  unfold SRResNet_new, SRResNet_init.
  destruct (kw !! "self"); [done|].
  set (ic := default _ (kw !! "image_channels")).
  set (fm := default _ (kw !! "feature_maps")).
  set (lr := default _ (kw !! "learning_rate")).
  intros Hnew.
  destruct (save_hyperparameters_named ic fm lr (extra_options kw))
    as (Hic & Hfm & _); [by apply extra_options_named; auto ..|].
  unfold getattr in Hnew.
  rewrite Hic, Hfm in Hnew. simpl in Hnew.
  destruct (SRGANGenerator ic fm) as [net|e]; simpl in Hnew; [|done].
  by injection Hnew as <-.
Qed.

Lemma SRResNet_new_hparams kw self :
  SRResNet_new kw = Ok self →
  hparams self !! "image_channels"
    = Some (default default_image_channels (kw !! "image_channels")) ∧
  hparams self !! "feature_maps"
    = Some (default default_feature_maps (kw !! "feature_maps")) ∧
  hparams self !! "learning_rate"
    = Some (default default_learning_rate (kw !! "learning_rate")).
Proof.
  intros (_ & -> & _)%SRResNet_new_inv.
  apply save_hyperparameters_named; apply extra_options_named; auto.
Qed.

(** What [configure_optimizers] does on any adapter that has a
    learning rate: it hands the parameters of the network and the
    learning rate to Adam, and leaves the adapter alone. *)
Lemma configure_optimizers_unfold self (lr : value) :
  hparams self !! "learning_rate" = Some lr →
  configure_optimizers self =
    (torch_optim_Adam (module_parameters (srresnet self)) lr, self).
Proof. intros Hlr. run_method. unfold getattr. by rewrite Hlr. Qed.

(** The amended form of C5.  Take an adapter the constructor returned,
    and [lr] its declared learning rate (the constructor's
    [learning_rate] argument, or the default).  If [lr] is a
    non-negative number and the generator network has a parameter,
    [configure_optimizers] returns one optimizer: it is Adam, its
    learning rate is [lr], and the tensors it updates are the parameters
    of the generator network, none missing and none added.  Otherwise
    the exception of [torch.optim.Adam] is passed on: a value error for
    a negative learning rate or for a network without parameters, a type
    error for [None] or a string.  The adapter is unchanged in every
    case. *)
Theorem configure_optimizers_spec kw self (lr : value) :
  SRResNet_new kw = Ok self →
  lr = default default_learning_rate (kw !! "learning_rate") →
  hparams self !! "learning_rate" = Some lr ∧
  (configure_optimizers self).2 = self ∧
  (((∃ q, lr = VFloat q ∧ (0 <= q)%Q) ∨ (∃ z, lr = VInt z ∧ (0 ≤ z)%Z) ∨
    (∃ b, lr = VBool b)) →
   module_parameters (srresnet self) ≠ [] →
   ∃ opt : optimizer,
     configure_optimizers self = (Ok opt, self) ∧
     optim_algorithm opt = Adam ∧
     optim_lr opt = lr ∧
     optim_params opt = module_parameters (srresnet self) ∧
     (∀ p, p ∈ optim_params opt ↔ p ∈ module_parameters (srresnet self))) ∧
  (((∃ q, lr = VFloat q ∧ (q < 0)%Q) ∨ (∃ z, lr = VInt z ∧ (z < 0)%Z) ∨
    module_parameters (srresnet self) = []) →
   (lr = VNone ∨ ∃ s, lr = VStr s) ∨
   configure_optimizers self = (Raise ValueError, self)) ∧
  ((lr = VNone ∨ ∃ s, lr = VStr s) →
   configure_optimizers self = (Raise TypeError, self)).
Proof.
  intros (_ & _ & Hlr)%SRResNet_new_hparams ->.
  set (lr := default default_learning_rate (kw !! "learning_rate")) in *.
  rewrite (configure_optimizers_unfold self lr Hlr). simpl.
  refine (conj Hlr (conj eq_refl (conj _ (conj _ _)))).
  - intros Hnum Hparams.
    assert (Hok : nonnegative lr = Ok true).
    { destruct Hnum as [(q & -> & Hq)|[(z & -> & Hz)|(b & ->)]]; simpl.
      - f_equal. by apply Qle_bool_iff.
      - f_equal. by apply Z.leb_le.
      - done. }
    unfold torch_optim_Adam. rewrite Hok. simpl.
    destruct (module_parameters (srresnet self)) as [|p ps] eqn:Hps; [done|].
    by eexists.
  - intros Hbad. unfold torch_optim_Adam.
    destruct lr as [ | b | z | q | s ] eqn:Hval; simpl;
      try (left; by eauto); right.
    + destruct Hbad as [(q & [=] & _)|[(z & [=] & _)| -> ]]. done.
    + destruct (Z.leb_spec 0 z) as [Hz|Hz]; [|done].
      destruct Hbad as [(q & [=] & _)|[(z' & [= ->] & Hz')| -> ]]; [lia|done].
    + destruct (Qle_bool 0 q) eqn:Hq; [|done].
      apply Qle_bool_iff in Hq.
      destruct Hbad as [(q' & [= ->] & Hq')|[(z & [=] & _)| -> ]]; [|done].
      by apply Qlt_not_le in Hq'.
  - intros [Hval|(s & Hval)]; by rewrite Hval.
Qed.

(** Keyword options the constructor does not name change neither
    whether it succeeds nor the network it builds; they are added to the
    hyperparameter set, but for the excluded names. *)
Lemma SRResNet_new_extra_options kw extras :
  extras !! "image_channels" = None →
  extras !! "feature_maps" = None →
  extras !! "learning_rate" = None →
  extras !! "self" = None →
  match SRResNet_new (extras ∪ kw), SRResNet_new kw with
  | Ok a, Ok b =>
      srresnet a = srresnet b ∧ logged a = logged b ∧
      hparams a = without_excluded extras ∪ hparams b
  | Raise e, Raise e' => e = e'
  | _, _ => False
  end.
Proof.
  intros Hic Hfm Hlr Hself.
  assert (Hextra : extra_options (extras ∪ kw) = extras ∪ extra_options kw).
  { unfold extra_options. rewrite !delete_union.
    by rewrite !(delete_id extras) by done. }
  unfold SRResNet_new. rewrite Hextra, !lookup_union_r by done.
  destruct (kw !! "self"); [done|].
  set (ic := default _ (kw !! "image_channels")).
  set (fm := default _ (kw !! "feature_maps")).
  set (lr := default _ (kw !! "learning_rate")).
  assert (Hsave : save_hyperparameters ic fm lr (extras ∪ extra_options kw)
                  = without_excluded extras
                    ∪ save_hyperparameters ic fm lr (extra_options kw)).
  { unfold save_hyperparameters.
    by rewrite <- (assoc_L (∪)), without_excluded_union. }
  unfold SRResNet_init. rewrite Hsave.
  destruct (save_hyperparameters_named ic fm lr (extra_options kw))
    as (Hic' & Hfm' & _); [by apply extra_options_named; auto ..|].
  assert (Hnone : ∀ name, extras !! name = None →
                          without_excluded extras !! name = None).
  { intros name Hname. destruct (decide (name ∈ excluded_names)).
    - by apply without_excluded_lookup_excluded.
    - by rewrite without_excluded_lookup. }
  unfold getattr. rewrite !lookup_union_r, Hic', Hfm' by auto. simpl.
  by destruct (SRGANGenerator ic fm).
Qed.

(** *** How a step ends *)

(** Every way a step can end: it raises and leaves the adapter as it
    was, or it returns a loss and logs that loss once. *)
Lemma training_step_outcome self (batch : pyobj) (batch_idx : Z) :
  (∃ e, training_step batch batch_idx self = (Raise e, self)) ∨
  (∃ loss,
     training_step batch batch_idx self =
       (Ok loss,
        {| hparams := hparams self;
           srresnet := srresnet self;
           logged := logged self ++
                     [{| metric_name := "loss"; metric_value := loss;
                         metric_on_step := true; metric_on_epoch := true |}] |})).
Proof.
  remember (training_step batch batch_idx self) as out eqn:Hout.
  unfold training_step in Hout. unfold mbind at 1, method_bind, pure_call in Hout.
  destruct (unpack2 batch) as [[hr_image lr_image]|e]; simpl in Hout;
    [|left; by exists e].
  unfold mbind at 1 in Hout.
  pose proof (forward_frame self lr_image) as Hfw.
  destruct (forward lr_image self) as [[fake|e] self']; simpl in Hfw; subst self';
    simpl in Hout; [|left; by exists e].
  unfold mbind at 1 in Hout.
  destruct (as_tensor hr_image (AttributeError "size") ≫= _) as [loss|e];
    simpl in Hout; [right; by exists loss | left; by exists e].
Qed.

(** X1. A batch that is a tuple or a list of any length other than two
    cannot be unpacked into (high_res, low_res): the step raises
    ValueError before the generator is called, logs nothing and leaves
    the adapter unchanged. *)
Theorem training_step_wrong_arity self (xs : list pyobj) (batch_idx : Z) :
  length xs ≠ 2%nat →
  training_step (PTuple xs) batch_idx self = (Raise ValueError, self) ∧
  training_step (PList xs) batch_idx self = (Raise ValueError, self).
Proof.
  intros Hlen.
  by destruct xs as [|a [|b [|c xs]]].
Qed.

(** X2. A step logs exactly when it returns.  If it raises, whatever
    the batch, the adapter is left as it was, with no metric logged; if
    it returns a loss, the adapter differs only by one more logged
    metric, named "loss", whose value is the returned loss. *)
Theorem training_step_logs_iff_returns self (batch : pyobj) (batch_idx : Z) :
  match (training_step batch batch_idx self).1 with
  | Ok loss =>
      (training_step batch batch_idx self).2 =
        {| hparams := hparams self;
           srresnet := srresnet self;
           logged := logged self ++
                     [{| metric_name := "loss"; metric_value := loss;
                         metric_on_step := true; metric_on_epoch := true |}] |}
  | Raise _ => (training_step batch batch_idx self).2 = self
  end.
Proof.
  by destruct (training_step_outcome self batch batch_idx) as [[e ->]|[loss ->]].
Qed.

(** What [forward] and a step return, as expressions over the
    interface that read the adapter's network and nothing else. *)
Lemma forward_result self (x : pyobj) :
  forward x self = (t ← as_tensor x TypeError; module_call (srresnet self) t, self).
Proof. reflexivity. Qed.

Lemma training_step_result self (batch : pyobj) (batch_idx : Z) :
  (training_step batch batch_idx self).1 =
    ('(hr_image, lr_image) ← unpack2 batch;
     t ← as_tensor lr_image TypeError;
     fake ← module_call (srresnet self) t;
     input ← as_tensor hr_image (AttributeError "size");
     mse_loss input fake).
Proof.
  run_method. unfold result_bind.
  destruct (unpack2 batch) as [[hr_image lr_image]|e]; simpl; [|done].
  destruct (as_tensor lr_image TypeError) as [t|e]; simpl; [|done].
  destruct (module_call (srresnet self) t) as [fake|e]; simpl; [|done].
  destruct (as_tensor hr_image (AttributeError "size")) as [input|e]; simpl;
    [|done].
  by destruct (mse_loss input fake).
Qed.

(** X3. What [forward] and [training_step] return depends on the
    adapter only through its generator network: two adapters with the
    same network give the same output and the same loss (or raise the
    same exception), whatever their hyperparameters and whatever they
    have logged before. *)
Theorem outputs_depend_on_network_only self self'
    (x batch : pyobj) (batch_idx : Z) :
  srresnet self = srresnet self' →
  (forward x self).1 = (forward x self').1 ∧
  (training_step batch batch_idx self).1 = (training_step batch batch_idx self').1.
Proof.
  intros Hnet. split.
  - by rewrite !forward_result, Hnet.
  - by rewrite !training_step_result, Hnet.
Qed.

(** X4. Training steps do not disturb the optimizer configuration:
    after a step, however it ended, [configure_optimizers] gives what it
    gave before the step. *)
Theorem configure_optimizers_after_step self (batch : pyobj) (batch_idx : Z) :
  (configure_optimizers (training_step batch batch_idx self).2).1 =
  (configure_optimizers self).1.
Proof.
  destruct (training_step_state self batch batch_idx) as [ms ->].
  run_method. by destruct (getattr (hparams self) "learning_rate").
Qed.

(** *** What construction depends on *)

(** Construction is the generator's construction, from the channel
    count and the feature-map width, wrapped with the stored options. *)
Lemma SRResNet_new_generator kw :
  SRResNet_new kw =
    match kw !! "self" with
    | Some _ => Raise TypeError
    | None =>
        net ← SRGANGenerator
                (default default_image_channels (kw !! "image_channels"))
                (default default_feature_maps (kw !! "feature_maps"));
        Ok {| hparams :=
                save_hyperparameters
                  (default default_image_channels (kw !! "image_channels"))
                  (default default_feature_maps (kw !! "feature_maps"))
                  (default default_learning_rate (kw !! "learning_rate"))
                  (extra_options kw);
              srresnet := net;
              logged := [] |}
    end.
Proof.
  unfold SRResNet_new, SRResNet_init.
  destruct (kw !! "self"); [done|].
  set (ic := default _ (kw !! "image_channels")).
  set (fm := default _ (kw !! "feature_maps")).
  set (lr := default _ (kw !! "learning_rate")).
  destruct (save_hyperparameters_named ic fm lr (extra_options kw))
    as (Hic & Hfm & _); [by apply extra_options_named; auto ..|].
  unfold getattr. by rewrite Hic, Hfm.
Qed.

(** X6. The learning rate plays no part in construction: giving or
    changing the [learning_rate] option changes neither whether the
    constructor succeeds, nor the exception it raises, nor the generator
    network it builds. *)
Theorem constructor_ignores_learning_rate kw (lr : value) :
  match SRResNet_new (<["learning_rate" := lr]> kw), SRResNet_new kw with
  | Ok a, Ok b => srresnet a = srresnet b ∧ logged a = logged b
  | Raise e, Raise e' => e = e'
  | _, _ => False
  end.
Proof.
  rewrite !SRResNet_new_generator, !lookup_insert_ne by done.
  destruct (kw !! "self"); [done|].
  by destruct (SRGANGenerator _ _).
Qed.

End AdapterFacts.

(** *** The adapter on concrete inputs *)

Example toy_construction :
  SRResNet_new (T:=Toy.torch) ∅ = Ok Toy.adapter.
Proof. vm_compute. reflexivity. Qed.

Example toy_forward :
  forward (T:=Toy.torch) (PTensor Toy.low_res) Toy.adapter =
    (Ok (Toy.signal [1; 1; 3; 3]%Q), Toy.adapter).
Proof. vm_compute. reflexivity. Qed.

(** The step of C1 on the one pair of the toy dataset, at index 7: the
    loss is 1/2 and one metric is logged. *)
Lemma training_step_spec_witness :
  training_step (T:=Toy.torch)
    (PList [PTensor Toy.high_res; PTensor Toy.low_res]) 7 Toy.adapter =
    (Ok (Toy.signal [1 # 2]%Q),
     {| hparams := hparams Toy.adapter;
        srresnet := srresnet Toy.adapter;
        logged := [{| metric_name := "loss"; metric_value := Toy.signal [1 # 2]%Q;
                      metric_on_step := true; metric_on_epoch := true |}] |}).
Proof.
  apply (training_step_spec (T:=Toy.torch) Toy.adapter _ 7
           Toy.high_res Toy.low_res (Toy.signal [1; 1; 3; 3]%Q)
           (Toy.signal [1 # 2]%Q));
    vm_compute; reflexivity.
Defined.



Example toy_matched_pair :
  (training_step (T:=Toy.torch)
     (PTuple [PTensor (Toy.signal [1; 1; 3; 3]%Q); PTensor Toy.low_res])
     0 Toy.adapter).1
    = Ok (Toy.signal [0%Q]).
Proof. vm_compute. reflexivity. Qed.

(** C5 as stated fails.  The constructor accepts a negative learning
    rate; on the adapter it returns, [configure_optimizers] returns no
    optimizer: the value error of [torch.optim.Adam] is passed on. *)
Lemma configure_optimizers_negative_rate_counterexample :
  let built :=
    SRResNet_new (T:=Toy.torch) {["learning_rate" := VFloat (-1 # 10)]} in
  is_ok built = true ∧
  (λ a, hparams a !! "learning_rate") <$> built = Ok (Some (VFloat (-1 # 10))) ∧
  (λ a, (configure_optimizers a).1) <$> built = Ok (Raise ValueError).
Proof. vm_compute. done. Qed.

(** The amended C5 on the adapter built from the defaults: Adam, with
    the learning rate 1e-4, over the one parameter of the toy
    generator. *)
Lemma configure_optimizers_spec_witness :
  ∃ opt : optimizer,
    configure_optimizers Toy.adapter = (Ok opt, Toy.adapter) ∧
    optim_algorithm opt = Adam ∧
    optim_lr opt = VFloat (1 # 10000) ∧
    optim_params opt = module_parameters (srresnet Toy.adapter) ∧
    (∀ p, p ∈ optim_params opt ↔ p ∈ module_parameters (srresnet Toy.adapter)).
Proof.
  destruct (configure_optimizers_spec (T:=Toy.torch) ∅ Toy.adapter
              (VFloat (1 # 10000)))
    as (_ & _ & Hreturns & _); [vm_compute; reflexivity ..|].
  apply Hreturns.
  - left. exists (1 # 10000)%Q. split; [reflexivity | discriminate].
  - discriminate.
Defined.

Example toy_optimizer :
  configure_optimizers Toy.adapter =
    (Ok {| optim_algorithm := Adam;
           optim_params := module_parameters (srresnet Toy.adapter);
           optim_lr := VFloat (1 # 10000) |},
     Toy.adapter) ∧
  module_parameters (Torch:=Toy.torch) (srresnet Toy.adapter) = [("gain", 1%Q)].
Proof. vm_compute. done. Qed.

(** X1 on a tuple of one tensor. *)
Lemma training_step_wrong_arity_witness :
  training_step (PTuple [PTensor Toy.low_res]) 0 Toy.adapter
    = (Raise ValueError, Toy.adapter) ∧
  training_step (PList [PTensor Toy.low_res]) 0 Toy.adapter
    = (Raise ValueError, Toy.adapter).
Proof.
  apply (training_step_wrong_arity (T:=Toy.torch) Toy.adapter
           [PTensor Toy.low_res] 0).
  simpl. lia.
Defined.

(** X3 on two adapters that share the fresh toy network and differ in
    their hyperparameter sets. *)
Lemma outputs_depend_on_network_only_witness :
  (forward (PTensor Toy.low_res) Toy.adapter).1
    = (forward (PTensor Toy.low_res) Toy.built).1 ∧
  (training_step (PList [PTensor Toy.high_res; PTensor Toy.low_res]) 3
     Toy.adapter).1
    = (training_step (PList [PTensor Toy.high_res; PTensor Toy.low_res]) 3
         Toy.built).1.
Proof.
  apply (outputs_depend_on_network_only (T:=Toy.torch) Toy.adapter Toy.built).
  reflexivity.
Defined.


(** ** The command line *)

Section ParserFacts.

Implicit Types (parser parent : list argspec) (opt : string).

Lemma add_argument_fresh parser opt (dflt : value) (ty : argtype) :
  opt ∉ map arg_option parser →
  add_argument parser opt dflt ty =
    Ok (parser ++ [{| arg_option := opt; arg_action := Store dflt ty |}]).
Proof. intros Hfresh. unfold add_argument. by rewrite decide_False. Qed.

Lemma add_argument_clash parser opt (dflt : value) (ty : argtype) :
  opt ∈ map arg_option parser →
  add_argument parser opt dflt ty = Raise (ArgumentError opt).
Proof. intros Hin. unfold add_argument. by rewrite decide_True. Qed.

Lemma options_snoc parser (a : argspec) opt :
  opt ∈ map arg_option (parser ++ [a]) ↔
  opt ∈ map arg_option parser ∨ opt = arg_option a.
Proof. rewrite map_app, elem_of_app. simpl. by rewrite list_elem_of_singleton. Qed.

(** The three declarations, checked against the parent alone. *)
Lemma add_model_specific_args_unfold parent :
  add_model_specific_args parent =
    if decide ("--image_channels" ∈ map arg_option parent)
    then Raise (ArgumentError "--image_channels")
    else if decide ("--feature_maps" ∈ map arg_option parent)
    then Raise (ArgumentError "--feature_maps")
    else if decide ("--learning_rate" ∈ map arg_option parent)
    then Raise (ArgumentError "--learning_rate")
    else Ok (parent ++ model_arguments).
Proof.
  unfold add_model_specific_args.
  destruct (decide ("--image_channels" ∈ map arg_option parent)) as [Hic|Hic];
    [by rewrite add_argument_clash|].
  rewrite add_argument_fresh by done. cbn [mbind result_bind].
  destruct (decide ("--feature_maps" ∈ map arg_option parent)) as [Hfm|Hfm].
  { rewrite add_argument_clash; [done|]. apply options_snoc. by left. }
  rewrite add_argument_fresh by (rewrite options_snoc; by intros [?|[=]]).
  cbn [mbind result_bind].
  destruct (decide ("--learning_rate" ∈ map arg_option parent)) as [Hlr|Hlr].
  { rewrite add_argument_clash; [done|]. rewrite !options_snoc. by left; left. }
  rewrite add_argument_fresh
    by (rewrite !options_snoc; by intros [[?|[=]]|[=]]).
  cbn [mbind result_bind]. by rewrite <- !(assoc_L (++)).
Qed.

(** X7. [add_model_specific_args] succeeds exactly when the parent
    parser declares none of [--image_channels], [--feature_maps] and
    [--learning_rate]; the returned parser then has all the arguments of
    the parent, unchanged and in the same order, followed by these three
    with the defaults 3, 64 and 1e-4. *)
Theorem add_model_specific_args_succeeds_iff parent parser :
  add_model_specific_args parent = Ok parser ↔
  (("--image_channels" ∉ map arg_option parent) ∧
   ("--feature_maps" ∉ map arg_option parent) ∧
   ("--learning_rate" ∉ map arg_option parent)) ∧
  parser = parent ++ model_arguments.
Proof.
  rewrite add_model_specific_args_unfold.
  repeat case_decide; split;
    first [ by intros [= <-] | by intros [(? & ? & ?) ->] ].
Qed.

(** X8. [add_model_specific_args] fails only by an option clash: when
    it raises, the exception is the argument error for one of its three
    options, and the parent parser already declares that option. *)
Theorem add_model_specific_args_fails_by_clash parent (e : exn) :
  add_model_specific_args parent = Raise e →
  ∃ opt, e = ArgumentError opt ∧
         opt ∈ map arg_option model_arguments ∧
         opt ∈ map arg_option parent.
Proof.
  rewrite add_model_specific_args_unfold.
  repeat case_decide; intros [= <-]; eexists; (split; [done|]);
    (split; [|done]); simpl; rewrite !elem_of_cons; auto.
Qed.

(** X9. The model arguments can be added only once: applied to a parser
    it has returned, [add_model_specific_args] raises the argument error
    for [--image_channels]. *)
Theorem add_model_specific_args_twice parent parser :
  add_model_specific_args parent = Ok parser →
  add_model_specific_args parser = Raise (ArgumentError "--image_channels").
Proof.
  rewrite add_model_specific_args_unfold.
  repeat case_decide; intros [= <-].
  rewrite add_model_specific_args_unfold, decide_True; [done|].
  rewrite map_app, elem_of_app. right. simpl. by left.
Qed.

End ParserFacts.


(** X8 and X9 on the parser that already holds the model arguments. *)
Lemma add_model_specific_args_fails_by_clash_witness :
  ∃ opt, ArgumentError "--image_channels" = ArgumentError opt ∧
         opt ∈ map arg_option model_arguments ∧
         opt ∈ map arg_option model_arguments.
Proof.
  apply (add_model_specific_args_fails_by_clash model_arguments).
  vm_compute. reflexivity.
Defined.

Lemma add_model_specific_args_twice_witness :
  add_model_specific_args model_arguments
    = Raise (ArgumentError "--image_channels").
Proof.
  apply (add_model_specific_args_twice [] model_arguments).
  vm_compute. reflexivity.
Defined.


(** ** The driver *)

Section DriverFacts.
Context {P : Python} {T : Torch} {L : Lightning}.

(** Walks through a run of [cli_main] given as [Hrun : cli_main _ = _],
    one outside call at a time, splitting on how each call ended. *)
Ltac run_cli Hrun :=
  unfold cli_main in Hrun;
  repeat (cbn [mbind process_bind seed_everything ArgumentParser call local app]
            in Hrun;
          match type of Hrun with
          | context [match ?x with Ok _ => _ | Raise _ => _ end] =>
              destruct x as [?|?] eqn:?
          | context [let '(_, _) := ?p in _] => is_var p; destruct p
          end);
  injection Hrun as <- <-.

(** Reads the events of a run that [run_cli] has laid out. *)
Ltac read_run :=
  cbn [fst snd parsed_options fit_outcome artifact_writes constructor_options
       trained_adapter omap list_omap head] in *.

(** C7. In every run of [cli_main], however it ends, the first call is
    [seed_everything(1234)]: building the parser, parsing the arguments
    and constructing the adapter, the datamodule and the trainer all come
    after it. *)
Theorem cli_main_seeds_first (args : option (list string)) :
  ∃ rest : list event, (cli_main args).1 = EvSeedEverything 1234 :: rest.
Proof.
  unfold cli_main. cbn [mbind process_bind seed_everything].
  match goal with
  | |- context [let '(_, _) := ?m in _] => destruct m as [rest r]
  end.
  by exists rest.
Qed.

(** C3. In a run where [parse_args] gave the options [ns], with the
    max-epoch option [max_epochs] among them, and [trainer.fit] returned,
    leaving the adapter [model] and the trainer [trainer], [cli_main]
    makes exactly one artifact write: it is its last call, it saves the
    generator network of [model], and the run ends as that call ends.
    The path is [srresnet-epoch=<max_epochs>-step=<global_step>.pt] with
    the two values formatted by [str]: for integer counts these are
    their decimal numerals, and a max-epoch option left at [None] reads
    [None]. *)
Theorem cli_main_persists_once (args : option (list string))
    (ns : gmap string value) (model : SRResNet) (trainer : trainer)
    (max_epochs : value) :
  parsed_options (cli_main args).1 = Some (Ok ns) →
  fit_outcome (cli_main args).1 = Some (Ok (model, trainer)) →
  ns !! "max_epochs" = Some max_epochs →
  ∃ path : string,
    artifact_writes (cli_main args).1 = [(srresnet model, path)] ∧
    last (cli_main args).1
      = Some (EvTorchSave (srresnet model) path
                (torch_save (srresnet model) path)) ∧
    (cli_main args).2 = torch_save (srresnet model) path ∧
    path = "srresnet-epoch=" +:+ py_str max_epochs +:+
           "-step=" +:+ py_str (Trainer_global_step trainer) +:+ ".pt" ∧
    (∀ step : Z, Trainer_global_step trainer = VInt step →
       (∀ epochs : Z, max_epochs = VInt epochs →
          path = "srresnet-epoch=" +:+ NilZero.string_of_int (Z.to_int epochs) +:+
                 "-step=" +:+ NilZero.string_of_int (Z.to_int step) +:+ ".pt") ∧
       (max_epochs = VNone →
          path = "srresnet-epoch=None-step=" +:+
                 NilZero.string_of_int (Z.to_int step) +:+ ".pt")).
Proof.
  destruct (cli_main args) as [evs r] eqn:Hrun.
  run_cli Hrun; read_run; try discriminate.
  all: intros [= <-] [= <- <-] Hme.
  all: match goal with
       | Hget : getattr _ "max_epochs" = _ |- _ =>
           unfold getattr in Hget; rewrite Hme in Hget;
           injection Hget as <- || discriminate Hget
       end.
  eexists. repeat (split; [reflexivity|]).
  intros step Hstep. rewrite Hstep.
  split; [intros epochs ->|intros ->]; reflexivity.
Qed.

(** X18. Without a [trainer.fit] that returned, nothing is written:
    a run that stops before training, or in which training raises,
    leaves no artifact. *)
Lemma cli_main_no_write_without_fit (args : option (list string)) :
  trained_adapter (cli_main args).1 = None →
  artifact_writes (cli_main args).1 = [].
Proof.
  destruct (cli_main args) as [evs r] eqn:Hrun.
  run_cli Hrun; unfold trained_adapter; read_run; done.
Qed.

(** X17. A usage error ends the run before anything is constructed or
    written: when [parse_args] raises, the run raises the same
    exception, no adapter is constructed and no artifact is written. *)
Lemma cli_main_usage_error (args : option (list string)) (e : exn) :
  parsed_options (cli_main args).1 = Some (Raise e) →
  (cli_main args).2 = Raise e ∧
  constructor_options (cli_main args).1 = None ∧
  artifact_writes (cli_main args).1 = [].
Proof.
  destruct (cli_main args) as [evs r] eqn:Hrun.
  run_cli Hrun; read_run; try discriminate.
  by intros [= <-].
Qed.

(** Every write of a run is of the generator network that training
    left, and the adapter was constructed from all the parsed options. *)
Lemma cli_main_run_inv (args : option (list string)) (model : SRResNet)
    (trainer : trainer) :
  fit_outcome (cli_main args).1 = Some (Ok (model, trainer)) →
  ∃ ns : gmap string value,
    parsed_options (cli_main args).1 = Some (Ok ns) ∧
    constructor_options (cli_main args).1 = Some ns ∧
    is_ok (SRResNet_new ns) = true ∧
    ∀ obj path, (obj, path) ∈ artifact_writes (cli_main args).1 →
                obj = srresnet model.
Proof.
  destruct (cli_main args) as [evs r] eqn:Hrun.
  run_cli Hrun; read_run; try discriminate.
  all: intros [= <- <-]; eexists; repeat split.
  all: try match goal with
           | Hnew : SRResNet_new _ = Ok _ |- _ => by rewrite Hnew
           end.
  all: intros obj path Hin.
  - by apply list_elem_of_singleton in Hin as [= -> _].
  - by apply elem_of_nil in Hin.
Qed.

Lemma cli_main_constructor_options (args : option (list string))
    (ns : gmap string value) :
  parsed_options (cli_main args).1 = Some (Ok ns) →
  constructor_options (cli_main args).1 = Some ns.
Proof.
  destruct (cli_main args) as [evs r] eqn:Hrun.
  run_cli Hrun; read_run; congruence.
Qed.

(** The amended form of C4.  In a run whose parsed options are [ns],
    the adapter is constructed from [ns]; with [built] the adapter the
    constructor makes from them: the
    hyperparameter set of [built] holds the image channel count, the
    feature-map width and the learning rate of [ns] (or their defaults),
    and [forward], [training_step] and [configure_optimizers] never
    change it.  What the run writes once [trainer.fit] has returned
    [model] is the generator network of [model] and nothing else of the
    adapter: the hyperparameter set is not part of the written object. *)
Theorem hyperparameters_fixed_artifact_is_generator
    (args : option (list string)) (ns : gmap string value)
    (built model : SRResNet) (trainer : trainer) :
  parsed_options (cli_main args).1 = Some (Ok ns) →
  SRResNet_new ns = Ok built →
  fit_outcome (cli_main args).1 = Some (Ok (model, trainer)) →
  constructor_options (cli_main args).1 = Some ns ∧
  (hparams built !! "image_channels"
     = Some (default default_image_channels (ns !! "image_channels")) ∧
   hparams built !! "feature_maps"
     = Some (default default_feature_maps (ns !! "feature_maps")) ∧
   hparams built !! "learning_rate"
     = Some (default default_learning_rate (ns !! "learning_rate"))) ∧
  (∀ x : pyobj, hparams (forward x built).2 = hparams built) ∧
  (∀ (batch : pyobj) (batch_idx : Z),
     hparams (training_step batch batch_idx built).2 = hparams built) ∧
  hparams (configure_optimizers built).2 = hparams built ∧
  (∀ obj path, (obj, path) ∈ artifact_writes (cli_main args).1 →
               obj = srresnet model).
Proof.
  intros Hparsed Hnew Hfit. refine (conj _ (conj _ (conj _ (conj _ (conj _ _))))).
  - by apply cli_main_constructor_options.
  - by apply SRResNet_new_hparams.
  - intros x. by rewrite forward_frame.
  - intros batch batch_idx. apply training_step_frame.
  - by rewrite configure_optimizers_frame.
  - by destruct (cli_main_run_inv args model trainer Hfit) as (? & _ & _ & _ & ?).
Qed.

(** The amended form of C10.  Keyword options beyond [image_channels],
    [feature_maps] and [learning_rate], and other than [self], which no
    call can pass, are accepted: with them the constructor succeeds
    exactly when it does without them (and raises the same exception
    otherwise), calls the generator's constructor with the same channel
    count and feature-map width, and declares the same three
    hyperparameters.  They are not dropped: the hyperparameter set of
    the adapter holds each of them too, except the ones named [kwargs],
    [__class__], [frame] or [frame_args], which [save_hyperparameters]
    leaves out.  [cli_main] constructs the adapter from every option
    [parse_args] returned. *)
Theorem constructor_keeps_extra_options
    (kw extras : gmap string value)
    (args : option (list string)) (ns : gmap string value) :
  extras !! "image_channels" = None →
  extras !! "feature_maps" = None →
  extras !! "learning_rate" = None →
  extras !! "self" = None →
  parsed_options (cli_main args).1 = Some (Ok ns) →
  match SRResNet_new (extras ∪ kw), SRResNet_new kw with
  | Ok a, Ok b =>
      srresnet a = srresnet b ∧ logged a = logged b ∧
      SRGANGenerator
        (default default_image_channels (kw !! "image_channels"))
        (default default_feature_maps (kw !! "feature_maps"))
        = Ok (srresnet a) ∧
      hparams a !! "image_channels" = hparams b !! "image_channels" ∧
      hparams a !! "feature_maps" = hparams b !! "feature_maps" ∧
      hparams a !! "learning_rate" = hparams b !! "learning_rate" ∧
      (∀ k v, extras !! k = Some v →
              k ∉ ["kwargs"; "__class__"; "frame"; "frame_args"] →
              hparams a !! k = Some v) ∧
      (∀ k, k ∈ ["self"; "kwargs"; "__class__"; "frame"; "frame_args"] →
            hparams a !! k = None) ∧
      (∀ k, extras !! k = None → hparams a !! k = hparams b !! k)
  | Raise e, Raise e' => e = e'
  | _, _ => False
  end ∧
  (∀ kw', is_Some (kw' !! "self") → SRResNet_new kw' = Raise TypeError) ∧
  constructor_options (cli_main args).1 = Some ns.
Proof.
  intros Hic Hfm Hlr Hself Hparsed.
  refine (conj _ (conj _ (cli_main_constructor_options _ _ Hparsed))).
  2:{ intros kw' [v Hv]. unfold SRResNet_new. by rewrite Hv. }
  pose proof (SRResNet_new_extra_options kw extras Hic Hfm Hlr Hself) as Hnew.
  destruct (SRResNet_new (extras ∪ kw)) as [a|e] eqn:Ha,
           (SRResNet_new kw) as [b|e'] eqn:Hb; try done.
  destruct Hnew as (Hnet & Hlog & Hhp).
  apply SRResNet_new_inv in Hb as (Hgen & Hhpb & _).
  assert (Hnone : ∀ k, extras !! k = None →
                       without_excluded extras !! k = None).
  { intros k Hk. destruct (decide (k ∈ excluded_names)).
    - by apply without_excluded_lookup_excluded.
    - by rewrite without_excluded_lookup. }
  assert (Hexcl : ∀ k, k ∈ excluded_names → hparams a !! k = None).
  { intros k Hk. rewrite Hhp, Hhpb. unfold save_hyperparameters.
    apply lookup_union_None. split; by apply without_excluded_lookup_excluded. }
  refine (conj Hnet (conj Hlog (conj _ (conj _ (conj _ (conj _
            (conj _ (conj Hexcl _)))))))).
  - by rewrite Hnet.
  - by rewrite Hhp, lookup_union_r by auto.
  - by rewrite Hhp, lookup_union_r by auto.
  - by rewrite Hhp, lookup_union_r by auto.
  - intros k v Hk Hkept. rewrite Hhp. apply lookup_union_Some_l.
    rewrite without_excluded_lookup; [done|].
    unfold excluded_names. rewrite not_elem_of_cons. split; [|done].
    intros ->. congruence.
  - intros k Hk. by rewrite Hhp, lookup_union_r by auto.
Qed.

(** *** The shape of a run *)

(** Reads the calls of a run that [run_cli] has laid out. *)
Ltac read_calls :=
  cbn [fst snd parsed_options fit_outcome artifact_writes constructor_options
       trained_adapter trainer_arguments omap list_omap head last length
       fmap list_fmap call_site raised returned exn_of forallb take
       Nat.sub seq mbind option_bind andb] in *.

(** X10. The calls of a run are the call sites of [cli_main] in source
    order, from the first one on, none skipped and none repeated: a run
    makes the first [n] of its thirteen calls, for some [n]. *)
Theorem cli_main_call_order (args : option (list string)) :
  call_site <$> (cli_main args).1 = seq 0 (length (cli_main args).1) ∧
  (1 ≤ length (cli_main args).1 ≤ 13)%nat.
Proof.
  destruct (cli_main args) as [evs r] eqn:Hrun.
  run_cli Hrun; read_calls; (split; [reflexivity | lia]).
Qed.

(** X11. [cli_main] stops at the first failure and passes it on.  In a
    run that raises [e], every call but the last one made returned, and
    either the last call raised [e], or every call returned and [e] is
    the attribute error for [log_interval] or [max_epochs] missing from
    the parsed options.  In a run that returns, every call returned. *)
Theorem cli_main_fail_fast (args : option (list string)) :
  match (cli_main args).2 with
  | Ok _ => forallb returned (cli_main args).1 = true
  | Raise e =>
      forallb returned
        (take (length (cli_main args).1 - 1) (cli_main args).1) = true ∧
      (last (cli_main args).1 ≫= raised = Some e ∨
       forallb returned (cli_main args).1 = true ∧
       (e = AttributeError "log_interval" ∨ e = AttributeError "max_epochs"))
  end.
Proof.
  destruct (cli_main args) as [evs r] eqn:Hrun.
  run_cli Hrun;
    try match goal with
        | |- context [torch_save ?net ?path] =>
            destruct (torch_save net path) eqn:?
        end;
    read_calls; try done; (split; [done|]).
  all: try (by left).
  all: right; (split; [done|]).
  all: match goal with
       | Hget : getattr ?ns ?name = Raise _ |- _ =>
           unfold getattr in Hget; destruct (ns !! name); [discriminate|];
           injection Hget as <-
       end; auto.
Qed.

(** X12. A run of [cli_main] returns only after the whole body ran:
    all thirteen calls were made, [trainer.fit] returned, and the last
    call is the one [torch.save], which returned, of the generator
    network that training left. *)
Theorem cli_main_returns_after_saving (args : option (list string)) :
  (cli_main args).2 = Ok tt →
  length (cli_main args).1 = 13%nat ∧
  ∃ (model : SRResNet) (trainer : trainer) (path : string),
    fit_outcome (cli_main args).1 = Some (Ok (model, trainer)) ∧
    artifact_writes (cli_main args).1 = [(srresnet model, path)] ∧
    last (cli_main args).1 = Some (EvTorchSave (srresnet model) path (Ok tt)).
Proof.
  destruct (cli_main args) as [evs r] eqn:Hrun.
  run_cli Hrun; read_calls; try discriminate.
  intros ->. split; [done|]. by eexists _, _, _.
Qed.

(** X13. An option name shared with another component stops the run
    before the command line is read.  If the parser that the dataset
    adapter and the trainer have filled already declares one of
    [--image_channels], [--feature_maps], [--learning_rate], the run
    raises the argument error for such an option; the arguments are not
    parsed, no adapter is constructed and nothing is written. *)
Theorem cli_main_option_clash (args : option (list string))
    (parent : list argspec) (opt : string) :
  trainer_arguments (cli_main args).1 = Some (Ok parent) →
  opt ∈ map arg_option model_arguments →
  opt ∈ map arg_option parent →
  (∃ opt', opt' ∈ map arg_option model_arguments ∧
           opt' ∈ map arg_option parent ∧
           (cli_main args).2 = Raise (ArgumentError opt')) ∧
  parsed_options (cli_main args).1 = None ∧
  constructor_options (cli_main args).1 = None ∧
  artifact_writes (cli_main args).1 = [].
Proof.
  intros Hparent Hopt Hin.
  assert (Hclash : ∃ opt', opt' ∈ map arg_option model_arguments ∧
                           opt' ∈ map arg_option parent ∧
                           add_model_specific_args parent
                           = Raise (ArgumentError opt')).
  { rewrite add_model_specific_args_unfold.
    simpl in Hopt |- *. rewrite !elem_of_cons, elem_of_nil in Hopt.
    repeat case_decide.
    - exists "--image_channels". rewrite !elem_of_cons. auto.
    - exists "--feature_maps". rewrite !elem_of_cons. auto.
    - exists "--learning_rate". rewrite !elem_of_cons. auto.
    - by destruct Hopt as [->|[->|[->|[]]]]. }
  destruct Hclash as (opt' & Hmodel & Hparent' & Hraise).
  revert Hparent.
  destruct (cli_main args) as [evs r] eqn:Hrun.
  run_cli Hrun; read_calls; try discriminate; intros [= ->].
  all: match goal with
       | Hadd : add_model_specific_args _ = _ |- _ =>
           rewrite Hraise in Hadd; injection Hadd as <- || discriminate Hadd
       end.
  split; [by exists opt'|done].
Qed.

(** X16. How the parser is put together.  In a run that gets to
    [parse_args], the dataset adapter was handed a parser that declares
    the help action of [ArgumentParser()] and [--log_interval] (default
    1000) and nothing else, the trainer was handed what the dataset
    adapter returned, and the parser that reads the command line is what
    the trainer returned followed by the three model arguments; it reads
    the given argument list, or [sys.argv] when none is given. *)
Theorem cli_main_parser_assembly (args : option (list string))
    (r : result (gmap string value)) :
  parsed_options (cli_main args).1 = Some r →
  ∃ with_dm parent : list argspec,
    DataModule_add_argparse_args
      [ {| arg_option := "-h"; arg_action := Help |};
        {| arg_option := "--help"; arg_action := Help |};
        {| arg_option := "--log_interval";
           arg_action := Store (VInt 1000) TInt |} ] = Ok with_dm ∧
    Trainer_add_argparse_args with_dm = Ok parent ∧
    add_model_specific_args parent = Ok (parent ++ model_arguments) ∧
    r = parse_args (parent ++ model_arguments) (default sys_argv args).
Proof.
  destruct (cli_main args) as [evs res] eqn:Hrun.
  run_cli Hrun; read_calls; try discriminate; intros [= <-].
  all: repeat match goal with
         | Hadd : add_argument help_arguments _ _ _ = Ok _ |- _ =>
             vm_compute in Hadd; injection Hadd as <-
         | Hadd : add_model_specific_args _ = Ok _ |- _ =>
             pose proof Hadd as Hadd';
             rewrite add_model_specific_args_unfold in Hadd';
             repeat case_decide; try discriminate;
             injection Hadd' as <-; revert Hadd
         end.
  all: intros Hadd; eexists _, _; repeat split; try eassumption; congruence.
Qed.

End DriverFacts.

(** *** The driver on concrete inputs *)

Example toy_run :
  let run := cli_main (L:=Toy.lightning Toy.one_pair) (Some []) in
  run.2 = Ok tt ∧
  artifact_writes run.1 = [(Toy.trained_net, "srresnet-epoch=1-step=1.pt")] ∧
  length run.1 = 13%nat.
Proof. vm_compute. done. Qed.

Example toy_run_usage_error :
  let run := cli_main (L:=Toy.lightning Toy.one_pair)
               (Some ["--learning_rate"; "fast"]) in
  run.2 = Raise (SystemExit 2) ∧ artifact_writes run.1 = [] ∧
  constructor_options run.1 = None.
Proof. vm_compute. done. Qed.

(** C3 on the toy run without arguments, one epoch and one step: the
    one write is under [srresnet-epoch=1-step=1.pt], and the run
    returns. *)
Lemma cli_main_persists_once_witness :
  artifact_writes (cli_main (L:=Toy.lightning Toy.one_pair) (Some [])).1
    = [(srresnet Toy.trained, "srresnet-epoch=1-step=1.pt")] ∧
  (cli_main (L:=Toy.lightning Toy.one_pair) (Some [])).2 = Ok tt.
Proof.
  destruct (cli_main_persists_once (L:=Toy.lightning Toy.one_pair) (Some [])
              Toy.default_options Toy.trained Toy.finished (VInt 1))
    as (path & Hwrites & _ & Hends & _ & Hpath);
    [vm_compute; reflexivity ..|].
  destruct (Hpath 1 eq_refl) as [Hint _].
  rewrite Hwrites, Hends, (Hint 1 eq_refl).
  split; vm_compute; reflexivity.
Defined.

(** C4 as stated fails.  Over a dataset without batches, a run with the
    default learning rate and a run with [--learning_rate 0.001] end
    with different hyperparameter sets, yet write the same object under
    the same path: the written artifact carries the generator network
    and not the hyperparameters. *)
Lemma artifact_without_hyperparameters_counterexample :
  let run1 := cli_main (L:=Toy.lightning []) (Some []) in
  let run2 := cli_main (L:=Toy.lightning []) (Some ["--learning_rate"; "0.001"]) in
  run1.2 = Ok tt ∧ run2.2 = Ok tt ∧
  artifact_writes run1.1 = [(Toy.fresh_net, "srresnet-epoch=1-step=0.pt")] ∧
  artifact_writes run2.1 = artifact_writes run1.1 ∧
  (λ m, hparams m !! "learning_rate") <$> trained_adapter run1.1
    = Some (Some (VFloat (1 # 10000))) ∧
  (λ m, hparams m !! "learning_rate") <$> trained_adapter run2.1
    = Some (Some (VFloat (1 # 1000))) ∧
  hparams <$> trained_adapter run1.1 ≠ hparams <$> trained_adapter run2.1.
Proof.
  intros run1 run2.
  assert (Hlr1 : (λ m, hparams m !! "learning_rate") <$> trained_adapter run1.1
                 = Some (Some (VFloat (1 # 10000))))
    by (vm_compute; reflexivity).
  assert (Hlr2 : (λ m, hparams m !! "learning_rate") <$> trained_adapter run2.1
                 = Some (Some (VFloat (1 # 1000))))
    by (vm_compute; reflexivity).
  refine (conj _ (conj _ (conj _ (conj _ (conj Hlr1 (conj Hlr2 _))))));
    try (vm_compute; reflexivity).
  intros Heq.
  destruct (trained_adapter run1.1) as [m1|], (trained_adapter run2.1) as [m2|];
    simpl in *; try discriminate.
  injection Heq as Heq. rewrite Heq in Hlr1. rewrite Hlr1 in Hlr2. discriminate.
Qed.

(** The amended C4 on the toy run without arguments. *)
Lemma hyperparameters_fixed_artifact_is_generator_witness :
  let run := cli_main (L:=Toy.lightning Toy.one_pair) (Some []) in
  constructor_options run.1 = Some Toy.default_options ∧
  (hparams Toy.built !! "image_channels"
     = Some (default default_image_channels
               (Toy.default_options !! "image_channels")) ∧
   hparams Toy.built !! "feature_maps"
     = Some (default default_feature_maps
               (Toy.default_options !! "feature_maps")) ∧
   hparams Toy.built !! "learning_rate"
     = Some (default default_learning_rate
               (Toy.default_options !! "learning_rate"))) ∧
  (∀ x : pyobj, hparams (forward x Toy.built).2 = hparams Toy.built) ∧
  (∀ (batch : pyobj) (batch_idx : Z),
     hparams (training_step batch batch_idx Toy.built).2 = hparams Toy.built) ∧
  hparams (configure_optimizers Toy.built).2 = hparams Toy.built ∧
  (∀ obj path, (obj, path) ∈ artifact_writes run.1 →
               obj = srresnet Toy.trained).
Proof.
  apply (hyperparameters_fixed_artifact_is_generator
           (L:=Toy.lightning Toy.one_pair) (Some [])
           Toy.default_options Toy.built Toy.trained Toy.finished);
    vm_compute; reflexivity.
Defined.

(** C10 as stated fails.  Constructed with the extra option
    [log_interval=1000], the adapter is not the adapter constructed
    without it: its hyperparameter set has the entry [log_interval]. *)
Lemma constructor_extra_options_counterexample :
  let with_extra :=
    SRResNet_new (T:=Toy.torch) {["log_interval" := VInt 1000]} in
  let without := SRResNet_new (T:=Toy.torch) ∅ in
  is_ok with_extra = true ∧
  without = Ok Toy.adapter ∧
  (λ m, hparams m !! "log_interval") <$> with_extra = Ok (Some (VInt 1000)) ∧
  (λ m, hparams m !! "log_interval") <$> without = Ok None ∧
  with_extra ≠ without.
Proof.
  intros with_extra without.
  assert (Hwith : (λ m, hparams m !! "log_interval") <$> with_extra
                  = Ok (Some (VInt 1000))) by (vm_compute; reflexivity).
  assert (Hwithout : (λ m, hparams m !! "log_interval") <$> without = Ok None)
    by (vm_compute; reflexivity).
  refine (conj _ (conj _ (conj Hwith (conj Hwithout _))));
    try (vm_compute; reflexivity).
  intros Heq. rewrite Heq, Hwithout in Hwith. discriminate.
Qed.

(** The amended C10 with the extra options [log_interval=1000] and
    [frame=1] and the toy run without arguments. *)
Lemma constructor_keeps_extra_options_witness :
  let extras : gmap string value :=
    {["log_interval" := VInt 1000; "frame" := VInt 1]} in
  match SRResNet_new (T:=Toy.torch) (extras ∪ ∅), SRResNet_new ∅ with
  | Ok a, Ok b =>
      srresnet a = srresnet b ∧ logged a = logged b ∧
      SRGANGenerator
        (default default_image_channels
           ((∅ : gmap string value) !! "image_channels"))
        (default default_feature_maps
           ((∅ : gmap string value) !! "feature_maps"))
        = Ok (srresnet a) ∧
      hparams a !! "image_channels" = hparams b !! "image_channels" ∧
      hparams a !! "feature_maps" = hparams b !! "feature_maps" ∧
      hparams a !! "learning_rate" = hparams b !! "learning_rate" ∧
      (∀ k v, extras !! k = Some v →
              k ∉ ["kwargs"; "__class__"; "frame"; "frame_args"] →
              hparams a !! k = Some v) ∧
      (∀ k, k ∈ ["self"; "kwargs"; "__class__"; "frame"; "frame_args"] →
            hparams a !! k = None) ∧
      (∀ k, extras !! k = None → hparams a !! k = hparams b !! k)
  | Raise e, Raise e' => e = e'
  | _, _ => False
  end ∧
  (∀ kw', is_Some (kw' !! "self") →
          SRResNet_new (T:=Toy.torch) kw' = Raise TypeError) ∧
  constructor_options (cli_main (L:=Toy.lightning Toy.one_pair) (Some [])).1
    = Some Toy.default_options.
Proof.
  apply (constructor_keeps_extra_options (L:=Toy.lightning Toy.one_pair)
           ∅ {["log_interval" := VInt 1000; "frame" := VInt 1]}
           (Some []) Toy.default_options);
    vm_compute; reflexivity.
Defined.

Example toy_extra_options :
  (λ a, map_to_list (hparams a)) <$>
    SRResNet_new (T:=Toy.torch)
      {["log_interval" := VInt 1000; "frame" := VInt 1]}
  = Ok [("image_channels", VInt 3); ("feature_maps", VInt 64);
        ("log_interval", VInt 1000); ("learning_rate", VFloat (1 # 10000))] ∧
  SRResNet_new (T:=Toy.torch) {["self" := VInt 1]} = Raise TypeError.
Proof. vm_compute. done. Qed.

(** X17 on the toy run with [--learning_rate fast]. *)
Lemma cli_main_usage_error_witness :
  let run := cli_main (L:=Toy.lightning Toy.one_pair)
               (Some ["--learning_rate"; "fast"]) in
  run.2 = Raise (SystemExit 2) ∧
  constructor_options run.1 = None ∧
  artifact_writes run.1 = [].
Proof.
  apply (cli_main_usage_error (L:=Toy.lightning Toy.one_pair)
           (Some ["--learning_rate"; "fast"]) (SystemExit 2)).
  vm_compute. reflexivity.
Defined.

(** X18 on training that fails on a malformed batch. *)
Lemma cli_main_no_write_without_fit_witness :
  artifact_writes (cli_main (L:=Toy.lightning Toy.malformed) (Some [])).1 = [].
Proof.
  apply (cli_main_no_write_without_fit (L:=Toy.lightning Toy.malformed) (Some [])).
  vm_compute. reflexivity.
Defined.

Example toy_run_malformed :
  (cli_main (L:=Toy.lightning Toy.malformed) (Some [])).2 = Raise ValueError.
Proof. vm_compute. reflexivity. Qed.

(** X12 on the toy run without arguments. *)
Lemma cli_main_returns_after_saving_witness :
  let run := cli_main (L:=Toy.lightning Toy.one_pair) (Some []) in
  length run.1 = 13%nat ∧
  ∃ (model : SRResNet) (trainer : trainer) (path : string),
    fit_outcome run.1 = Some (Ok (model, trainer)) ∧
    artifact_writes run.1 = [(srresnet model, path)] ∧
    last run.1 = Some (EvTorchSave (srresnet model) path (Ok tt)).
Proof.
  apply (cli_main_returns_after_saving (L:=Toy.lightning Toy.one_pair) (Some [])).
  vm_compute. reflexivity.
Defined.

(** X13 with a trainer that declares [--learning_rate] itself. *)
Lemma cli_main_option_clash_witness :
  let run := cli_main (L:=Toy.clashing) (Some []) in
  (∃ opt', opt' ∈ map arg_option model_arguments ∧
           opt' ∈ map arg_option Toy.clashing_arguments ∧
           run.2 = Raise (ArgumentError opt')) ∧
  parsed_options run.1 = None ∧
  constructor_options run.1 = None ∧
  artifact_writes run.1 = [].
Proof.
  apply (cli_main_option_clash (L:=Toy.clashing) (Some [])
           Toy.clashing_arguments "--learning_rate").
  - vm_compute. reflexivity.
  - apply (bool_decide_unpack _). vm_compute. exact I.
  - apply (bool_decide_unpack _). vm_compute. exact I.
Defined.

Example toy_run_clash :
  (cli_main (L:=Toy.clashing) (Some [])).2
    = Raise (ArgumentError "--learning_rate").
Proof. vm_compute. reflexivity. Qed.

(** X16 on the toy run without arguments. *)
Lemma cli_main_parser_assembly_witness :
  ∃ with_dm parent : list argspec,
    DataModule_add_argparse_args (Lightning:=Toy.lightning Toy.one_pair)
      [ {| arg_option := "-h"; arg_action := Help |};
        {| arg_option := "--help"; arg_action := Help |};
        {| arg_option := "--log_interval";
           arg_action := Store (VInt 1000) TInt |} ] = Ok with_dm ∧
    Trainer_add_argparse_args (Lightning:=Toy.lightning Toy.one_pair) with_dm
      = Ok parent ∧
    add_model_specific_args parent = Ok (parent ++ model_arguments) ∧
    Ok Toy.default_options
      = parse_args (Lightning:=Toy.lightning Toy.one_pair)
          (parent ++ model_arguments)
          (default (sys_argv (Python:=Toy.python)) (Some [])).
Proof.
  apply (cli_main_parser_assembly (L:=Toy.lightning Toy.one_pair) (Some [])
           (Ok Toy.default_options)).
  vm_compute. reflexivity.
Defined.


(** ** The datamodule package *)

Section DataModulesFacts.
Import DataModules.

(** Running statements is binding their names one after the other. *)
Lemma exec_statement_bindings (ns : gmap string origin) (s : statement) :
  exec_statement ns s = foldl (λ ns b, <[b.1 := b.2]> ns) ns (bindings s).
Proof.
  destruct s as [source names| | |]; simpl; try done.
  rewrite foldl_app.
  assert (Hnames : ∀ ns' : gmap string origin,
             foldl (λ ns name, <[name := ImportedFrom source]> ns) ns' names
             = foldl (λ ns (b : string * origin), <[b.1 := b.2]> ns) ns'
                 ((λ name, (name, ImportedFrom source)) <$> names)).
  { induction names as [|name names IH]; intros ns'; simpl; [done|].
    by rewrite IH. }
  rewrite Hnames. by destruct (submodule source).
Qed.

Lemma exec_statements_bindings (ns : gmap string origin) (stmts : list statement) :
  foldl exec_statement ns stmts =
  foldl (λ ns b, <[b.1 := b.2]> ns) ns (stmts ≫= bindings).
Proof.
  revert ns. induction stmts as [|s stmts IH]; intros ns; simpl; [done|].
  by rewrite foldl_app, <- exec_statement_bindings, IH.
Qed.

Lemma foldl_insert_list_to_map (bs : list (string * origin)) :
  foldl (λ ns b, <[b.1 := b.2]> ns) (∅ : gmap string origin) bs
  = list_to_map (reverse bs).
Proof.
  induction bs as [|b bs IH] using rev_ind; [done|].
  by rewrite foldl_app, reverse_app, IH.
Qed.







(** X15. No name is imported twice, so the order of the import lines
    does not matter: the statements of the package file, run in any
    order, give the same namespace. *)
Theorem datamodules_import_order (stmts : list statement) :
  stmts ≡ₚ init_py →
  foldl exec_statement ∅ stmts = namespace.
Proof.
  intros Hperm. unfold namespace.
  rewrite !exec_statements_bindings, !foldl_insert_list_to_map.
  apply list_to_map_proper.
  - rewrite fmap_reverse, reverse_Permutation, Hperm.
    apply (bool_decide_unpack _). by vm_compute.
  - rewrite !reverse_Permutation. by apply bind_Permutation.
Qed.

Lemma datamodules_import_order_witness :
  foldl exec_statement ∅ (reverse init_py) = namespace.
Proof.
  apply (datamodules_import_order (reverse init_py)).
  apply reverse_Permutation.
Defined.

End DataModulesFacts.

(** ** The artifact path *)

Section PathFacts.
Context {P : Python}.

(** Two strings split at the first occurrence of a separator. *)
Lemma append_separator_inj (c : ascii) (a a' r r' : string) :
  lacks c a → lacks c a' →
  a +:+ String c r = a' +:+ String c r' → a = a' ∧ r = r'.
Proof.
  revert a'. induction a as [|x a IH]; intros [|x' a'] Ha Ha' Heq;
    simpl in *.
  - by injection Heq as ->.
  - injection Heq as <- _. by destruct Ha' as [[] _].
  - injection Heq as -> _. by destruct Ha as [[] _].
  - injection Heq as -> Heq. destruct Ha as [_ Ha], Ha' as [_ Ha'].
    by destruct (IH a' Ha Ha' Heq) as [-> ->].
Qed.

Lemma digits_lack (c : ascii) (d : Decimal.uint) :
  c ≠ "0"%char → c ≠ "1"%char → c ≠ "2"%char → c ≠ "3"%char → c ≠ "4"%char →
  c ≠ "5"%char → c ≠ "6"%char → c ≠ "7"%char → c ≠ "8"%char → c ≠ "9"%char →
  lacks c (NilZero.string_of_uint d).
Proof.
  intros. assert (Hd : lacks c (NilEmpty.string_of_uint d))
    by (induction d; simpl; auto).
  destruct d; simpl in *; auto.
Qed.

Lemma digits_nonempty (d : Decimal.uint) : NilZero.string_of_uint d ≠ "".
Proof. by destruct d. Qed.

Lemma int_string_lacks_dot (z : Z) : lacks "." (py_str (VInt z)).
Proof.
  simpl. destruct (Z.to_int z) as [d|d]; simpl;
    [|split; [done|]]; by apply digits_lack.
Qed.

(** A numeral followed by a dash: the dash that ends the numeral is
    found, whether the numeral has a sign or not. *)
Lemma int_string_dash_inj (z z' : Z) (r r' : string) :
  py_str (VInt z) +:+ String "-" r = py_str (VInt z') +:+ String "-" r' →
  py_str (VInt z) = py_str (VInt z') ∧ r = r'.
Proof.
  simpl.
  assert (Hlack : ∀ d, lacks "-" (NilZero.string_of_uint d))
    by (intros d; by apply digits_lack).
  destruct (Z.to_int z) as [d|d], (Z.to_int z') as [d'|d']; simpl; intros Heq.
  - by apply (append_separator_inj "-").
  - pose proof (Hlack d) as Hd. pose proof (digits_nonempty d) as Hne.
    destruct (NilZero.string_of_uint d) as [|x s]; [done|].
    simpl in *. injection Heq as -> _. by destruct Hd as [[] _].
  - pose proof (Hlack d') as Hd. pose proof (digits_nonempty d') as Hne.
    destruct (NilZero.string_of_uint d') as [|x s]; [done|].
    simpl in *. injection Heq as <- _. by destruct Hd as [[] _].
  - injection Heq as Heq.
    by destruct (append_separator_inj "-" _ _ _ _ (Hlack d) (Hlack d') Heq)
      as [-> ->].
Qed.

(** [str] of an integer can be read back. *)
Lemma int_string_inj (z z' : Z) :
  py_str (VInt z) = py_str (VInt z') → z = z'.
Proof.
  simpl. intros Heq.
  assert (Hback : ∀ n, NilZero.int_of_string (NilZero.string_of_int (Z.to_int n))
                       = Some (Z.to_int n)).
  { intros n. apply NilZero.isi; destruct n; simpl; try discriminate;
      intros [= Hnil]; by apply DecimalPos.Unsigned.to_uint_nonnil in Hnil. }
  apply (f_equal NilZero.int_of_string) in Heq. rewrite !Hback in Heq.
  injection Heq as Heq. apply (f_equal Z.of_int) in Heq.
  by rewrite !DecimalZ.of_to in Heq.
Qed.

(** X14. The artifact path determines the counts it was made from:
    two runs whose integer max-epoch options or final global steps
    differ write under different paths, so neither overwrites the
    artifact of the other. *)
Theorem artifact_path_injective (max_epochs global_step max_epochs' global_step' : Z) :
  max_epochs ≠ max_epochs' ∨ global_step ≠ global_step' →
  "srresnet-epoch=" +:+ py_str (VInt max_epochs) +:+
    "-step=" +:+ py_str (VInt global_step) +:+ ".pt"
  ≠ "srresnet-epoch=" +:+ py_str (VInt max_epochs') +:+
    "-step=" +:+ py_str (VInt global_step') +:+ ".pt".
Proof.
  intros Hdiff Heq.
  cbn [String.append] in Heq.
  injection Heq as Heq.
  apply int_string_dash_inj in Heq as [He Heq].
  injection Heq as Heq.
  apply append_separator_inj in Heq as [Hs _]; [|apply int_string_lacks_dot..].
  apply int_string_inj in He, Hs. by destruct Hdiff.
Qed.

End PathFacts.

Lemma artifact_path_injective_witness :
  "srresnet-epoch=" +:+ py_str (P:=Toy.python) (VInt 1) +:+
    "-step=" +:+ py_str (P:=Toy.python) (VInt 11) +:+ ".pt"
  ≠ "srresnet-epoch=" +:+ py_str (P:=Toy.python) (VInt 11) +:+
    "-step=" +:+ py_str (P:=Toy.python) (VInt 1) +:+ ".pt".
Proof.
  apply (artifact_path_injective (P:=Toy.python) 1 11 11 1). left. lia.
Defined.
